(** * TalentMatch-AI: the job matcher's scoring engine and ranking pass

    A shallow embedding of [utils/jobs_matcher.py] (class [JobMatcher]) and
    the properties its specification states about it.

    Conventions of the embedding.
    - A Python [str] is a [string] whose characters are the code points
      0..255; [lower], [strip] and [split] follow CPython on that range.
    - A cell of the jobs data frame is an [option string]: [None] is the
      missing value ([NaN]) for which [pd.isna] answers [True].
    - The resume is a [dict]: a key that is absent is [None], and reading it
      with [resume_data['k']] raises [KeyError].
    - Scores are Python floats in the source.  They are embedded twice.
      The definitions at top level take them as exact rationals ([Q]), the
      decimal literals of the source being the rationals they denote; they
      carry the statements on order, bounds and membership, which rounding
      does not touch.  The module [F64] takes them as the binary64 floats
      they are, every operation rounded as the hardware rounds it; it
      carries the statements on the very values the code returns.
    - [DataFrame.sort_values] is library code.  The ranking pass takes it as
      a parameter, constrained by what pandas promises for the default
      [kind='quicksort'] (see [sort_values_contract]). *)

From Stdlib Require Import String Ascii List Bool Arith ZArith QArith Lia.
From Stdlib Require Import Permutation Sorted Lqa Floats.
Import ListNotations.

Local Open Scope string_scope.
Local Open Scope list_scope.

(* ------------------------------------------------------------------ *)
(** ** Python strings *)

Module PyStr.

Definition code (c : ascii) : nat := nat_of_ascii c.

Definition in_range (lo hi n : nat) : bool := (lo <=? n)%nat && (n <=? hi)%nat.

(** [c.isupper()] on code points below 256: A-Z, and the accented capitals
    of Latin-1 (0xC0-0xDE but the multiplication sign 0xD7). *)
Definition is_upper (c : ascii) : bool :=
  in_range 65 90 (code c) || in_range 192 214 (code c) || in_range 216 222 (code c).

Definition lower_char (c : ascii) : ascii :=
  if is_upper c then ascii_of_nat (code c + 32) else c.

(** [s.lower()] *)
Fixpoint lower (s : string) : string :=
  match s with
  | EmptyString => EmptyString
  | String c r => String (lower_char c) (lower r)
  end.

(** [c.isspace()]: tab, line feed, vertical tab, form feed, carriage return,
    the separators 0x1C-0x1F, space, NEL and the no-break space. *)
Definition isspace (c : ascii) : bool :=
  in_range 9 13 (code c) || in_range 28 32 (code c)
  || (code c =? 133)%nat || (code c =? 160)%nat.

(** [s[:n]] for [n >= 0] *)
Fixpoint take (n : nat) (s : string) : string :=
  match n, s with
  | O, _ => EmptyString
  | S _, EmptyString => EmptyString
  | S k, String c r => String c (take k r)
  end.

(** [needle in hay] *)
Fixpoint contains (needle hay : string) : bool :=
  prefix needle hay ||
  match hay with
  | EmptyString => false
  | String _ r => contains needle r
  end.

(** [s.split(sep)] for a one-character separator: never the empty list. *)
Fixpoint split_on (sep : ascii) (s : string) : list string :=
  match s with
  | EmptyString => [EmptyString]
  | String c r =>
      if Ascii.eqb c sep then EmptyString :: split_on sep r
      else match split_on sep r with
           | [] => [String c EmptyString]
           | w :: ws => String c w :: ws
           end
  end.

Fixpoint lstrip (s : string) : string :=
  match s with
  | EmptyString => EmptyString
  | String c r => if isspace c then lstrip r else s
  end.

Fixpoint rstrip (s : string) : string :=
  match s with
  | EmptyString => EmptyString
  | String c r =>
      match rstrip r with
      | EmptyString => if isspace c then EmptyString else String c EmptyString
      | r' => String c r'
      end
  end.

(** [s.strip()] *)
Definition strip (s : string) : string := rstrip (lstrip s).

(** [s.split()]: the maximal runs of non-space characters, in order.
    [cur] is the run being read. *)
Fixpoint split_ws_from (cur : string) (s : string) : list string :=
  match s with
  | EmptyString => if String.eqb cur "" then [] else [cur]
  | String c r =>
      if isspace c
      then (if String.eqb cur "" then split_ws_from "" r
            else cur :: split_ws_from "" r)
      else split_ws_from (cur ++ String c "") r
  end.

Definition split_ws (s : string) : list string := split_ws_from "" s.

(** [sep.join(parts)] *)
Definition join (sep : string) (parts : list string) : string := String.concat sep parts.

(** [set(words)], kept as a duplicate-free list. *)
Definition to_set (ws : list string) : list string := nodup string_dec ws.

Definition mem (w : string) (ws : list string) : bool :=
  existsb (String.eqb w) ws.

(** [a & b] on sets *)
Definition inter (a b : list string) : list string :=
  filter (fun w => mem w b) a.

(** [str(x)] of a data-frame cell: a missing value prints as [nan]. *)
Definition str (x : option string) : string :=
  match x with
  | Some s => s
  | None => "nan"
  end.

End PyStr.

(* ------------------------------------------------------------------ *)
(** ** Exceptions *)

Inductive pyerr : Type :=
| KeyError (key : string)
| ZeroDivisionError.

(** A computation that may raise: [inl e] is the exception [e]. *)
Definition result (A : Type) : Type := (pyerr + A)%type.

Definition ret {A : Type} (a : A) : result A := inr a.

Definition raise {A : Type} (e : pyerr) : result A := inl e.

Definition bind {A B : Type} (m : result A) (k : A -> result B) : result B :=
  match m with
  | inl e => inl e
  | inr a => k a
  end.

Notation "x <- m ;; k" := (bind m (fun x => k))
  (at level 61, m at next level, right associativity).

(** [d[key]] on a dict entry that may be absent. *)
Definition getitem {A : Type} (key : string) (entry : option A) : result A :=
  match entry with
  | Some a => ret a
  | None => raise (KeyError key)
  end.

(** [d.get(key, default)] *)
Definition get_default {A : Type} (entry : option A) (default : A) : A :=
  match entry with
  | Some a => a
  | None => default
  end.

(** [m / n] on two [int]s (true division). *)
Definition truediv (m n : nat) : result Q :=
  match n with
  | O => raise ZeroDivisionError
  | S _ => ret (Z.of_nat m # Pos.of_nat n)
  end.

Definition Qltb (a b : Q) : bool := negb (Qle_bool b a).

(* ------------------------------------------------------------------ *)
(** ** Data *)

(** The resume dict as the analyzer hands it over; only the keys the
    matcher reads. *)
Record ResumeData : Type := {
  skills : option (list string);
  experience_years : option Q;
  desired_roles : option (list string);
  career_level : option string
}.

(** One row of [jobs_df]. *)
Record JobRow : Type := {
  category : option string;
  job_description : option string;
  company : option string;
  location : option string;
  post_link : option string;
  keywords : option string
}.

(** The dict [calculate_overall_score] returns. *)
Record Scores : Type := {
  overall : Q;
  skill_score : Q;
  exp_score : Q;
  title_score : Q;
  estimated_level : string
}.

(** One row of the data frame [finding_matching_jobs] returns. *)
Record MatchResult : Type := {
  r_title : string;
  r_company : option string;
  r_location : option string;
  r_experience_level : string;
  r_description : option string;
  r_post_link : option string;
  r_keywords : option string;
  r_match_score : Q;
  r_skill_score : Q;
  r_exp_score : Q;
  r_title_score : Q
}.

(* ------------------------------------------------------------------ *)
(** ** JobMatcher *)

Definition newline : ascii := ascii_of_nat 10.

(** [extract_title_from_description] *)
Definition extract_title_from_description (description : option string) : string :=
  match description with
  | None => "Unknown Position"
  | Some d =>
      let first_part := PyStr.take 200 d in
      let lines := PyStr.split_on newline first_part in
      match lines with
      | line0 :: _ => PyStr.take 100 (PyStr.strip line0)
      | [] => "Unknown Position"
      end
  end.

(** [if job_keywords and not pd.isna(job_keywords)] *)
Definition keywords_given (job_keywords : option string) : bool :=
  match job_keywords with
  | Some k => negb (String.eqb k "")
  | None => false
  end.

Definition combined_text (job_description job_title job_keywords : option string)
  : string :=
  let text_parts :=
    [PyStr.str job_description; PyStr.str job_title]
      ++ (if keywords_given job_keywords then [PyStr.str job_keywords] else []) in
  PyStr.lower (PyStr.join " " text_parts).

Definition skill_matches (combined : string) (skill : string) : bool :=
  PyStr.contains (PyStr.lower skill) combined.

(** [calculate_skill_match]; [job_keywords] defaults to [None]. *)
Definition calculate_skill_match (resume_skills : list string)
    (job_description job_title job_keywords : option string) : result Q :=
  match resume_skills with
  | [] => ret 0.0
  | _ :: _ =>
      let combined := combined_text job_description job_title job_keywords in
      let matched_count := length (filter (skill_matches combined) resume_skills) in
      truediv matched_count (length resume_skills)
  end.

Definition any_in (words : list string) (text : string) : bool :=
  existsb (fun word => PyStr.contains word text) words.

(** [estimate_experience_level] *)
Definition estimate_experience_level (job_description job_title : option string)
  : string :=
  let d := match job_description with Some s => s | None => "" end in
  let t := match job_title with Some s => s | None => "" end in
  let combined := PyStr.lower (d ++ " " ++ t)%string in
  if any_in ["intern"; "internship"] combined then "Internship"
  else if any_in ["entry level"; "junior"; "graduate"; "associate"] combined
  then "Entry level"
  else if any_in ["senior"; "sr."; "lead"; "principal"] combined
  then "Mid-Senior level"
  else if any_in ["director"; "head of"; "vp"; "vice president"] combined
  then "Director"
  else if any_in ["chief"; "cto"; "ceo"; "executive"] combined
  then "Executive"
  else "Mid-Senior level".

(** The dict [level_ranges] of [calculate_experience_match]. *)
Definition level_ranges : list (string * (Z * Z)) :=
  [ ("Internship", (0, 1)%Z);
    ("Entry level", (0, 2)%Z);
    ("Associate", (1, 3)%Z);
    ("Mid-Senior level", (3, 8)%Z);
    ("Director", (8, 15)%Z);
    ("Executive", (15, 30)%Z) ].

Fixpoint lookup {V : Type} (key : string) (d : list (string * V)) : option V :=
  match d with
  | [] => None
  | (k, v) :: rest => if String.eqb key k then Some v else lookup key rest
  end.

(** The two decay ladders of [calculate_experience_match]. *)
Definition below_score (gap : Q) : Q :=
  if Qle_bool gap 0.5 then 0.95
  else if Qle_bool gap 1.0 then 0.85
  else if Qle_bool gap 1.5 then 0.70
  else if Qle_bool gap 2.0 then 0.55
  else 0.30.

Definition above_score (gap : Q) : Q :=
  if Qle_bool gap 1.0 then 0.90
  else if Qle_bool gap 2.0 then 0.75
  else if Qle_bool gap 3.0 then 0.60
  else 0.40.

(** [calculate_experience_match] *)
Definition calculate_experience_match (resume_years : Q) (job_level : option string)
  : Q :=
  match job_level with
  | None => 0.5
  | Some level =>
      if String.eqb level "" then 0.5
      else
        match lookup level level_ranges with
        | None => 0.5
        | Some (min_years, max_years) =>
            if Qle_bool (inject_Z min_years) resume_years
               && Qle_bool resume_years (inject_Z max_years)
            then 1.0
            else if Qltb resume_years (inject_Z min_years)
            then below_score (inject_Z min_years - resume_years)
            else above_score (resume_years - inject_Z max_years)
        end
  end.

(** [len(common_words)] for one desired role against the lower-cased title. *)
Definition common_words (job_title_lower desired : string) : list string :=
  let desired_words := PyStr.to_set (PyStr.split_ws (PyStr.lower desired)) in
  let title_words := PyStr.to_set (PyStr.split_ws job_title_lower) in
  PyStr.inter desired_words title_words.

(** The [for desired in resume_desired_roles] loop of [calculate_title_match]. *)
Fixpoint title_scan (job_title_lower : string) (roles : list string) : Q :=
  match roles with
  | [] => 0.3
  | desired :: rest =>
      let n := length (common_words job_title_lower desired) in
      if (2 <=? n)%nat then 1.0
      else if (n =? 1)%nat then 0.7
      else title_scan job_title_lower rest
  end.

(** [calculate_title_match] *)
Definition calculate_title_match (job_title : option string)
    (resume_desired_roles : list string) : Q :=
  match resume_desired_roles, job_title with
  | [], _ => 0.5
  | _, None => 0.5
  | _ :: _, Some t => title_scan (PyStr.lower t) resume_desired_roles
  end.

(** The title the scorer works with: the [category] cell, or the first line
    of the description when the cell is missing or empty. *)
Definition resolve_title (job_row : JobRow) : string :=
  match category job_row with
  | None => extract_title_from_description (job_description job_row)
  | Some t =>
      if String.eqb t "" then extract_title_from_description (job_description job_row)
      else t
  end.

Definition weight_skills : Q := 0.50.
Definition weight_experience : Q := 0.30.
Definition weight_title : Q := 0.20.

(** [calculate_overall_score] *)
Definition calculate_overall_score (resume_data : ResumeData) (job_row : JobRow)
  : result Scores :=
  let job_title := resolve_title job_row in
  let description := job_description job_row in
  let level := estimate_experience_level description (Some job_title) in
  resume_skills <- getitem "skills" (skills resume_data) ;;
  skill <- calculate_skill_match resume_skills description (Some job_title) None ;;
  years <- getitem "experience_years" (experience_years resume_data) ;;
  let exp := calculate_experience_match years (Some level) in
  let title :=
    calculate_title_match (Some job_title)
      (get_default (desired_roles resume_data) []) in
  ret {| overall := skill * weight_skills + exp * weight_experience
                    + title * weight_title;
         skill_score := skill;
         exp_score := exp;
         title_score := title;
         estimated_level := level |}.

(** The dict appended to [results] for a posting that passes. *)
Definition make_result (job : JobRow) (scores : Scores) : MatchResult :=
  {| r_title := resolve_title job;
     r_company := company job;
     r_location := location job;
     r_experience_level := estimated_level scores;
     r_description := job_description job;
     r_post_link := post_link job;
     r_keywords := keywords job;
     r_match_score := overall scores;
     r_skill_score := skill_score scores;
     r_exp_score := exp_score scores;
     r_title_score := title_score scores |}.

(** The [for idx, job in self.jobs_df.iterrows()] loop: [results] is the
    list built so far, a passing posting is appended at its end. *)
Fixpoint collect_results (resume_data : ResumeData) (min_score : Q)
    (jobs : list JobRow) (results : list MatchResult) : result (list MatchResult) :=
  match jobs with
  | [] => ret results
  | job :: rest =>
      scores <- calculate_overall_score resume_data job ;;
      collect_results resume_data min_score rest
        (if Qle_bool min_score (overall scores)
         then results ++ [make_result job scores]
         else results)
  end.

(** [DataFrame.head(n)]: the first [n] rows; for a negative [n], all rows
    but the last [-n]. *)
Definition head {A : Type} (n : Z) (rows : list A) : list A :=
  if (0 <=? n)%Z then firstn (Z.to_nat n) rows
  else firstn (length rows - Z.to_nat (- n)) rows.

(** [finding_matching_jobs], over the catalog [jobs] held by the matcher.
    [sort_values] stands for
    [results_df.sort_values('match_score', ascending=False)].  The lines
    that print the profile are left out; among them
    [len(resume_data.get('skills', []))] needs a [skills] entry that is
    absent or has a length, which [ResumeData] grants: the entry is a list
    when it is there. *)
Definition finding_matching_jobs
    (sort_values : list MatchResult -> list MatchResult)
    (resume_data : ResumeData) (jobs : list JobRow) (top_n : Z) (min_score : Q)
  : result (list MatchResult) :=
  results <- collect_results resume_data min_score jobs [] ;;
  match results with
  | [] => ret []
  | _ :: _ => ret (head top_n (sort_values results))
  end.

(** Rows in non-increasing [match_score] order. *)
Definition descending (rows : list MatchResult) : Prop :=
  StronglySorted (fun a b => r_match_score b <= r_match_score a) rows.

(** What [sort_values(..., ascending=False)] promises whatever its [kind]:
    the same rows, in non-increasing order of the key. *)
Definition sort_values_contract
    (sort_values : list MatchResult -> list MatchResult) : Prop :=
  forall rows, Permutation rows (sort_values rows) /\ descending (sort_values rows).

(** Insertion of a row into rows already sorted: the row goes past the
    rows [x] for which [goes_past r x] holds. *)
Fixpoint insert_by (goes_past : MatchResult -> MatchResult -> bool)
    (r : MatchResult) (sorted : list MatchResult) : list MatchResult :=
  match sorted with
  | [] => [r]
  | x :: xs =>
      if goes_past r x then x :: insert_by goes_past r xs else r :: x :: xs
  end.

Definition sort_by (goes_past : MatchResult -> MatchResult -> bool)
    (rows : list MatchResult) : list MatchResult :=
  fold_right (insert_by goes_past) [] rows.

(** A sort that meets the contract: a row goes past the rows that score
    strictly more. *)
Definition scores_less (r x : MatchResult) : bool :=
  Qltb (r_match_score r) (r_match_score x).

Definition stable_sort_desc : list MatchResult -> list MatchResult :=
  sort_by scores_less.

(* ------------------------------------------------------------------ *)
(** ** The specification's wording *)

(** section 3: every field of the profile is present and the years are not
    negative. *)
Definition valid_profile (resume_data : ResumeData) : Prop :=
  (exists sk, skills resume_data = Some sk)
  /\ (exists y, experience_years resume_data = Some y /\ 0 <= y)
  /\ (exists roles, desired_roles resume_data = Some roles)
  /\ (exists lvl, career_level resume_data = Some lvl).

(** The postings of the catalog whose overall score reaches [min_score]. *)
Definition meets_threshold (resume_data : ResumeData) (min_score : Q)
    (job : JobRow) : bool :=
  match calculate_overall_score resume_data job with
  | inr scores => Qle_bool min_score (overall scores)
  | inl _ => false
  end.

Definition count_meeting (resume_data : ResumeData) (min_score : Q)
    (jobs : list JobRow) : nat :=
  length (filter (meets_threshold resume_data min_score) jobs).

(** The first newline-delimited line of [s]. *)
Definition first_line (s : string) : string := hd "" (PyStr.split_on newline s).

(** section 4.1 as worded: the first line of the description, trimmed, cut to 100
    characters. *)
Definition spec_fallback_title (description : option string) : string :=
  match description with
  | None => "Unknown Position"
  | Some d => PyStr.take 100 (PyStr.strip (first_line d))
  end.

(** section 4.3 as worded: the text a skill is looked for in, keywords included
    when the posting has them. *)
Definition spec_matched_text (job : JobRow) : string :=
  PyStr.lower
    (PyStr.join " "
       ([PyStr.str (job_description job); resolve_title job]
          ++ match keywords job with
             | Some k => if String.eqb k "" then [] else [k]
             | None => []
             end)).

Definition spec_skill_score (resume_skills : list string) (job : JobRow) : Q :=
  match resume_skills with
  | [] => 0
  | _ :: _ =>
      Z.of_nat (length (filter (fun skill =>
                                  PyStr.contains (PyStr.lower skill)
                                                 (spec_matched_text job))
                               resume_skills))
      # Pos.of_nat (length resume_skills)
  end.

(** [n] copies of [c]. *)
Fixpoint replicate (n : nat) (c : ascii) : string :=
  match n with
  | O => EmptyString
  | S k => String c (replicate k c)
  end.

Definition mk_job (title description kw : option string) : JobRow :=
  {| category := title; job_description := description;
     company := None; location := None; post_link := None; keywords := kw |}.

Definition mk_resume (sk : list string) (years : Q) (roles : list string)
  : ResumeData :=
  {| skills := Some sk; experience_years := Some years;
     desired_roles := Some roles; career_level := Some "Mid" |}.

(** A posting without title whose first line is [a], 199 spaces, [b]. *)
Definition long_line_job : JobRow :=
  mk_job None (Some ("a" ++ replicate 199 " " ++ "b")%string) None.

Definition estimator_labels : list string :=
  ["Internship"; "Entry level"; "Mid-Senior level"; "Director"; "Executive"].

(** A posting whose keywords name a skill that its text does not. *)
Definition keyword_job : JobRow :=
  mk_job (Some "Engineer") (Some "Backend developer") (Some "python, django").

(** section 4.5 as worded: the result set is made of the postings whose overall
    score reaches [min_score], in catalog order. *)
Definition spec_result_set (resume_data : ResumeData) (min_score : Q)
    (jobs : list JobRow) : list MatchResult :=
  flat_map (fun job =>
              match calculate_overall_score resume_data job with
              | inr scores =>
                  if Qle_bool min_score (overall scores)
                  then [make_result job scores] else []
              | inl _ => []
              end) jobs.

(** Two postings that differ in the company only. *)
Definition job_acme : JobRow :=
  {| category := Some "Engineer"; job_description := Some "Python services";
     company := Some "Acme"; location := None; post_link := None;
     keywords := None |}.

Definition job_bolt : JobRow :=
  {| category := Some "Engineer"; job_description := Some "Python services";
     company := Some "Bolt"; location := None; post_link := None;
     keywords := None |}.

Definition python_resume : ResumeData := mk_resume ["python"] 4 [].

(** A posting without title whose description has two lines. *)
Definition first_line_job : JobRow :=
  mk_job None
    (Some ("  Data Engineer " ++ String newline "Acme is hiring")%string) None.

(* ------------------------------------------------------------------ *)
(** ** Further definitions *)

(** [c in s] for one character. *)
Fixpoint has_char (c : ascii) (s : string) : bool :=
  match s with
  | EmptyString => false
  | String c' r => Ascii.eqb c' c || has_char c r
  end.

(* ------------------------------------------------------------------ *)
(** ** The analyzer ([utils/groq_analyzer.py]): preparing the text *)

(** [s.rfind(c)] for one character: the index of its last occurrence,
    -1 when there is none. *)
Fixpoint rfind_char (c : ascii) (s : string) : Z :=
  match s with
  | EmptyString => (-1)%Z
  | String c' r =>
      let i := rfind_char c r in
      if (0 <=? i)%Z then (i + 1)%Z
      else if Ascii.eqb c' c then 0%Z else (-1)%Z
  end.

Definition max_char : nat := 4000.

(** Step 1 of [analyze_resume]: the text handed to the model. *)
Definition prepare_text (resume_text : string) : string :=
  if (String.length resume_text <=? max_char)%nat then resume_text
  else
    let truncated := PyStr.take max_char resume_text in
    let last_spaced_index := rfind_char " " truncated in
    if (0 <? last_spaced_index)%Z
    then PyStr.take (Z.to_nat last_spaced_index) truncated
    else truncated.

(** A resume of 4005 characters whose only space is its third character. *)
Definition long_resume : string := ("ab cd" ++ replicate 4000 "x")%string.

(* ------------------------------------------------------------------ *)
(** ** The analyzer: cleaning the response *)

(** [s[n:]] *)
Fixpoint drop (n : nat) (s : string) : string :=
  match n, s with
  | O, _ => s
  | S _, EmptyString => EmptyString
  | S k, String _ r => drop k r
  end.

(** [s.split(sep)] for a separator that is not empty.  [skip] counts the
    characters of a separator just found that are still to be passed,
    [cur] is the piece being read. *)
Fixpoint split_str_from (sep : string) (skip : nat) (cur : string) (s : string)
  : list string :=
  match s with
  | EmptyString => [cur]
  | String c r =>
      match skip with
      | S k => split_str_from sep k cur r
      | O =>
          if prefix sep s
          then cur :: split_str_from sep (String.length sep - 1) "" r
          else split_str_from sep 0 (cur ++ String c "") r
      end
  end.

Definition split_str (sep : string) (s : string) : list string :=
  split_str_from sep 0 "" s.

Definition fence : string := "```".
Definition json_fence : string := "```json".

(** Step 4 of [analyze_resume]; [None] stands for an [IndexError]. *)
Definition clean_response (content : string) : option string :=
  let unfenced (opening : string) :=
    match nth_error (split_str opening content) 1 with
    | None => None
    | Some inner => nth_error (split_str fence inner) 0
    end in
  let content' :=
    if PyStr.contains json_fence content then unfenced json_fence
    else if PyStr.contains fence content then unfenced fence
    else Some content in
  option_map PyStr.strip content'.

(** The text before the first occurrence of [sep], and the text after it. *)
Fixpoint before_first (sep : string) (s : string) : string :=
  match s with
  | EmptyString => EmptyString
  | String c r => if prefix sep s then EmptyString else String c (before_first sep r)
  end.

Fixpoint after_first (sep : string) (s : string) : option string :=
  match s with
  | EmptyString => None
  | String c r =>
      if prefix sep s then Some (drop (String.length sep) s) else after_first sep r
  end.

(* ------------------------------------------------------------------ *)
(** ** The analyzer: validating the parsed response *)

(** What [json.loads] returns.  A number is the finite value it has. *)
#[warnings="-register-all"]
Inductive json : Type :=
| JNull
| JBool (b : bool)
| JNum (q : Q)
| JStr (s : string)
| JList (items : list json)
| JObj (fields : list (string * json)).

(** The exceptions of steps 6 and 7; none of them is caught. *)
Inductive analyzer_error : Type :=
| ValueError
| TypeError.

(** [float(v)]; [parse_float] stands for [float] applied to a [str], with
    [None] for the strings it rejects with a [ValueError].  On a number
    the embedding holds for the values binary64 has (see
    [binary64_value]), which [float] returns as they are; an [int] that
    binary64 does not have is rounded by [float], or refused with an
    [OverflowError], and is outside the embedding. *)
Definition py_float (parse_float : string -> option Q) (v : json)
  : analyzer_error + Q :=
  match v with
  | JNum q => inr q
  | JBool b => inr (if b then 1 else 0)
  | JStr s =>
      match parse_float s with
      | Some q => inr q
      | None => inl ValueError
      end
  | JNull | JList _ | JObj _ => inl TypeError
  end.

(** [len(v)] *)
Definition py_len (v : json) : analyzer_error + nat :=
  match v with
  | JStr s => inr (String.length s)
  | JList items => inr (length items)
  | JObj fields => inr (length fields)
  | JNull | JBool _ | JNum _ => inl TypeError
  end.

(** [v == 0] *)
Definition equals_zero (v : json) : bool :=
  match v with
  | JNum q => Qeq_bool q 0
  | JBool b => negb b
  | JNull | JStr _ | JList _ | JObj _ => false
  end.

(** Rounding to the nearest integer, ties to the even one. *)
Definition round_half_even (q : Q) : Z :=
  let f := (Qnum q / Z.pos (Qden q))%Z in
  match Qcompare (q - inject_Z f) (1 # 2) with
  | Lt => f
  | Gt => (f + 1)%Z
  | Eq => if Z.even f then f else (f + 1)%Z
  end.

(** [round(q, 1)] *)
Definition py_round1 (q : Q) : Q := inject_Z (round_half_even (q * 10)) / 10.

(** The parsed response, a JSON object: its keys in order, each once. *)
Definition pydict : Type := list (string * json).

(** [d[key] = v] *)
Fixpoint setitem (key : string) (v : json) (d : pydict) : pydict :=
  match d with
  | [] => [(key, v)]
  | (k, x) :: rest =>
      if String.eqb key k then (k, v) :: rest else (k, x) :: setitem key v rest
  end.

(** Step 6 of [analyze_resume]. *)
Definition fix_experience (parse_float : string -> option Q) (result : pydict)
  : analyzer_error + pydict :=
  match
    match lookup "experience_years" result with
    | Some v =>
        match py_float parse_float v with
        | inr q => inr (setitem "experience_years" (JNum q) result)
        | inl e => inl e
        end
    | None => inr result
    end
  with
  | inl e => inl e
  | inr result1 =>
      if equals_zero (get_default (lookup "experience_years" result1) (JNum 0))
      then
        match py_len (get_default (lookup "past_roles" result1) (JList [])) with
        | inl e => inl e
        | inr num_roles =>
            if (0 <? num_roles)%nat
            then
              let estimated_years :=
                py_round1 (inject_Z (Z.of_nat num_roles) * 1.5) in
              inr (setitem "experience_years" (JNum estimated_years) result1)
            else inr result1
        end
      else inr result1
  end.

Definition required_fields : list string :=
  [ "skills"; "experience_years"; "past_roles"; "current_role";
    "domain"; "projects"; "education_level"; "technologies";
    "career_level"; "work_preferences"; "key_achievements"; "desired_roles" ].

Definition list_fields : list string :=
  [ "skills"; "past_roles"; "projects"; "technologies";
    "key_achievements"; "desired_roles" ].

(** The default step 7 gives a missing field. *)
Definition default_value (field : string) : json :=
  if PyStr.mem field list_fields then JList []
  else if String.eqb field "experience_years" then JNum 0.0
  else JStr "Not specified".

(** The loop of step 7 over [fields]. *)
Definition fill_defaults (fields : list string) (result : pydict) : pydict :=
  fold_left
    (fun res field =>
       match lookup field res with
       | Some _ => res
       | None => setitem field (default_value field) res
       end)
    fields result.

(** Steps 6 and 7 of [analyze_resume], on the parsed response. *)
Definition validate_and_fix (parse_float : string -> option Q) (result : pydict)
  : analyzer_error + pydict :=
  match fix_experience parse_float result with
  | inl e => inl e
  | inr result1 => inr (fill_defaults required_fields result1)
  end.

(** A [float] for the examples: it reads no string. *)
Definition reads_nothing (s : string) : option Q := None.

(* ------------------------------------------------------------------ *)
(** ** The PDF handler ([utils/pdf_handler.py]) *)

(** What the library gives for one page: [inr text] when
    [page.extract_text()] returns, [inl message] when it raises.  The
    reader itself is [inl message] when [PdfReader(pdf_file)] raises. *)
Definition page_outcome : Type := (string + string)%type.

(** The loop over [pdf_reader.pages]; [extracted] is the list built so
    far. *)
Fixpoint extract_pages (pages : list page_outcome) (extracted : list string)
  : string + list string :=
  match pages with
  | [] => inr extracted
  | inl e :: _ => inl e
  | inr page_text :: rest =>
      extract_pages rest
        (if String.eqb page_text "" then extracted else extracted ++ [page_text])
  end.

Definition error_text (e : string) : string :=
  ("Error reading file. An error occured: " ++ e)%string.

(** [extract_text_from_pdf] *)
Definition extract_text_from_pdf (reader : string + list page_outcome) : string :=
  match reader with
  | inl e => error_text e
  | inr pages =>
      match extract_pages pages [] with
      | inl e => error_text e
      | inr extracted => PyStr.strip (PyStr.join " " extracted)
      end
  end.

Definition nonempty (s : string) : bool := negb (String.eqb s "").

(* ------------------------------------------------------------------ *)
(** ** The constructor of [JobMatcher] *)

(** The columns kept by [__init__]: [columns] are the labels of the frame
    read from the CSV file. *)
Definition drop_unnamed (columns : list string) : list string :=
  let unnamed_cols := filter (fun col => prefix "Unnamed" col) columns in
  match unnamed_cols with
  | [] => columns
  | _ :: _ => filter (fun col => negb (PyStr.mem col unnamed_cols)) columns
  end.

(* ------------------------------------------------------------------ *)
(** ** The scores as binary64 floats *)

Module F64.

(** [float(n)] for an [int] below 2^53, which binary64 holds exactly. *)
Definition of_int (z : Z) : float := PrimFloat.of_uint63 (Uint63.of_Z z).

(** The exact value of a float that is finite; [None] for an infinity or
    a NaN. *)
Definition value (x : float) : option Q :=
  match Prim2SF x with
  | S754_zero _ => Some 0
  | S754_finite negative m e =>
      Some ((if negative then -1 else 1) * inject_Z (Z.pos m) * 2 ^ e)
  | S754_infinity _ | S754_nan => None
  end.

(** [m / n] on two [int]s below 2^53: the quotient rounded once. *)
Definition truediv (m n : nat) : result float :=
  match n with
  | O => raise ZeroDivisionError
  | S _ => ret (of_int (Z.of_nat m) / of_int (Z.of_nat n))%float
  end.

(** [calculate_skill_match] *)
#[warnings="-inexact-float"]
Definition calculate_skill_match (resume_skills : list string)
    (job_description job_title job_keywords : option string) : result float :=
  match resume_skills with
  | [] => ret 0.0%float
  | _ :: _ =>
      let combined := combined_text job_description job_title job_keywords in
      let matched_count := length (filter (skill_matches combined) resume_skills) in
      truediv matched_count (length resume_skills)
  end.

#[warnings="-inexact-float"]
Definition below_score (gap : float) : float :=
  if (gap <=? 0.5)%float then 0.95%float
  else if (gap <=? 1.0)%float then 0.85%float
  else if (gap <=? 1.5)%float then 0.70%float
  else if (gap <=? 2.0)%float then 0.55%float
  else 0.30%float.

#[warnings="-inexact-float"]
Definition above_score (gap : float) : float :=
  if (gap <=? 1.0)%float then 0.90%float
  else if (gap <=? 2.0)%float then 0.75%float
  else if (gap <=? 3.0)%float then 0.60%float
  else 0.40%float.

(** [calculate_experience_match]: the bounds of the band are [int]s, the
    years a float; a comparison or a difference of the two is that of the
    bound turned into a float. *)
Definition calculate_experience_match (resume_years : float)
    (job_level : option string) : float :=
  match job_level with
  | None => 0.5%float
  | Some level =>
      if String.eqb level "" then 0.5%float
      else
        match lookup level level_ranges with
        | None => 0.5%float
        | Some (min_years, max_years) =>
            if ((of_int min_years <=? resume_years)
                && (resume_years <=? of_int max_years))%float
            then 1.0%float
            else if (resume_years <? of_int min_years)%float
            then below_score (of_int min_years - resume_years)%float
            else above_score (resume_years - of_int max_years)%float
        end
  end.

#[warnings="-inexact-float"]
Fixpoint title_scan (job_title_lower : string) (roles : list string) : float :=
  match roles with
  | [] => 0.3%float
  | desired :: rest =>
      let n := length (common_words job_title_lower desired) in
      if (2 <=? n)%nat then 1.0%float
      else if (n =? 1)%nat then 0.7%float
      else title_scan job_title_lower rest
  end.

(** [calculate_title_match] *)
Definition calculate_title_match (job_title : option string)
    (resume_desired_roles : list string) : float :=
  match resume_desired_roles, job_title with
  | [], _ => 0.5%float
  | _, None => 0.5%float
  | _ :: _, Some t => title_scan (PyStr.lower t) resume_desired_roles
  end.

(** The resume dict, the years a float. *)
Record ResumeData : Type := {
  skills : option (list string);
  experience_years : option float;
  desired_roles : option (list string)
}.

Record Scores : Type := {
  overall : float;
  skill_score : float;
  exp_score : float;
  title_score : float;
  estimated_level : string
}.

#[warnings="-inexact-float"]
Definition weight_skills : float := 0.50%float.
#[warnings="-inexact-float"]
Definition weight_experience : float := 0.30%float.
#[warnings="-inexact-float"]
Definition weight_title : float := 0.20%float.

(** [calculate_overall_score] *)
Definition calculate_overall_score (resume_data : ResumeData) (job_row : JobRow)
  : result Scores :=
  let job_title := resolve_title job_row in
  let description := job_description job_row in
  let level := estimate_experience_level description (Some job_title) in
  resume_skills <- getitem "skills" (skills resume_data) ;;
  skill <- calculate_skill_match resume_skills description (Some job_title) None ;;
  years <- getitem "experience_years" (experience_years resume_data) ;;
  let exp := calculate_experience_match years (Some level) in
  let title :=
    calculate_title_match (Some job_title)
      (get_default (desired_roles resume_data) []) in
  ret {| overall := (skill * weight_skills + exp * weight_experience
                     + title * weight_title)%float;
         skill_score := skill;
         exp_score := exp;
         title_score := title;
         estimated_level := level |}.

End F64.

(** Five skills of which the posting names three, ten years of
    experience, no desired role. *)
#[warnings="-inexact-float"]
Definition five_skills_resume : F64.ResumeData :=
  {| F64.skills := Some ["python"; "sql"; "spark"; "cobol"; "fortran"];
     F64.experience_years := Some 10.0%float;
     F64.desired_roles := Some [] |}.

Definition three_skills_job : JobRow :=
  mk_job (Some "Data Engineer") (Some "Pipelines in Python, SQL and Spark") None.

(** The double just below 1: 1 - 2^-53. *)
#[warnings="-inexact-float"]
Definition just_below_one : float := 0.9999999999999999%float.

(** Section 4.3 as worded: the band of each level, in whole years. *)
Definition band_years : list (string * (Z * Z)) :=
  [ ("Internship", (0, 1)%Z);
    ("Entry level", (0, 2)%Z);
    ("Associate", (1, 3)%Z);
    ("Mid-Senior level", (3, 8)%Z);
    ("Director", (8, 15)%Z);
    ("Executive", (15, 30)%Z) ].

(* ------------------------------------------------------------------ *)
(** ** Section 4.2 as worded: a keyword occurring, letter case ignored *)

(** The capital letters and, in the same order, the small ones. *)
Definition letter_pairs : list (ascii * ascii) :=
  combine (list_ascii_of_string "ABCDEFGHIJKLMNOPQRSTUVWXYZ")
          (list_ascii_of_string "abcdefghijklmnopqrstuvwxyz").

(** [c] is the character [k], or the capital of the letter [k]. *)
Definition same_letter (c k : ascii) : Prop := c = k \/ In (c, k) letter_pairs.

(** [mid] reads [word] when letter case is ignored. *)
Inductive reads : string -> string -> Prop :=
| reads_nil : reads "" ""
| reads_cons (c k : ascii) (mid word : string) :
    same_letter c k -> reads mid word -> reads (String c mid) (String k word).

(** [word] occurs in [text], letter case ignored. *)
Definition occurs (word text : string) : Prop :=
  exists pre mid post, text = (pre ++ mid ++ post)%string /\ reads mid word.

(** One of [words] occurs in [text]. *)
Definition some_occurs (words : list string) (text : string) : Prop :=
  exists word, In word words /\ occurs word text.

(** The characters the keywords of section 4.2 are written with: small
    letters, the space and the full stop. *)
Definition keyword_chars : list ascii :=
  list_ascii_of_string "abcdefghijklmnopqrstuvwxyz .".

Definition keyword (word : string) : Prop :=
  Forall (fun k => In k keyword_chars) (list_ascii_of_string word).

Definition same_letterb (c k : ascii) : bool :=
  Ascii.eqb c k
  || existsb (fun p => Ascii.eqb c (fst p) && Ascii.eqb k (snd p)) letter_pairs.

(** The 256 characters. *)
Definition all_chars : list ascii := map ascii_of_nat (seq 0 256).

(** A posting that writes its level in capitals. *)
Definition capitals_job_description : option string :=
  Some "We are hiring a JUNIOR Data Analyst".

(* ------------------------------------------------------------------ *)
(** ** The numbers binary64 has *)

(** [q] is the value of a finite double: an integer of less than 54 bits
    times a power of two in the range of the format. *)
Definition binary64_value (q : Q) : Prop :=
  exists m e : Z,
    (Z.abs m < 2 ^ 53)%Z /\ (-1074 <= e <= 971)%Z /\ q == inject_Z m * 2 ^ e.
(* ------------------------------------------------------------------ *)
(** ** Strings: the first line and its prefixes *)

Lemma split_on_cons (sep c : ascii) (r : string) :
  hd "" (PyStr.split_on sep (String c r))
  = if Ascii.eqb c sep then "" else String c (hd "" (PyStr.split_on sep r)).
Proof.
  simpl. destruct (Ascii.eqb c sep); [reflexivity|].
  destruct (PyStr.split_on sep r); reflexivity.
Qed.

Lemma split_on_not_nil (sep : ascii) (s : string) : PyStr.split_on sep s <> [].
Proof.
  destruct s as [|c r]; simpl; [discriminate|].
  destruct (Ascii.eqb c sep); [discriminate|].
  destruct (PyStr.split_on sep r); discriminate.
Qed.

Lemma first_line_take (n : nat) (s : string) :
  first_line (PyStr.take n s) = PyStr.take n (first_line s).
Proof.
  unfold first_line. revert n.
  induction s as [|c r IH]; intros [|n]; try reflexivity.
  cbn [PyStr.take]. rewrite !split_on_cons.
    destruct (Ascii.eqb c newline); [reflexivity|].
    cbn [PyStr.take]. now rewrite IH.
Qed.

Lemma take_all (n : nat) (s : string) :
  (String.length s <= n)%nat -> PyStr.take n s = s.
Proof.
  revert n. induction s as [|c r IH]; intros [|n] H; simpl in *;
    try reflexivity; try lia.
  f_equal. apply IH. lia.
Qed.

Lemma extract_title_some (d : string) :
  extract_title_from_description (Some d)
  = PyStr.take 100 (PyStr.strip (PyStr.take 200 (first_line d))).
Proof.
  unfold extract_title_from_description.
  rewrite <- first_line_take. unfold first_line.
  pose proof (split_on_not_nil newline (PyStr.take 200 d)) as Hne.
  destruct (PyStr.split_on newline (PyStr.take 200 d)); [contradiction|reflexivity].
Qed.

Lemma resolve_title_fallback (job : JobRow) :
  category job = None \/ category job = Some "" ->
  resolve_title job = extract_title_from_description (job_description job).
Proof.
  unfold resolve_title. intros [-> | ->]; reflexivity.
Qed.

(* ------------------------------------------------------------------ *)
(** ** C8: the fallback title *)

(** C8, as stated, fails: the source first cuts the description to its
    first 200 characters.  For a first line made of [a], 199 spaces and
    [b], the source answers [a], the wording answers [a] and 99 spaces. *)
Lemma C8_counterexample :
  category long_line_job = None
  /\ resolve_title long_line_job = "a"
  /\ spec_fallback_title (job_description long_line_job)
     = ("a" ++ replicate 99 " ")%string
  /\ resolve_title long_line_job
     <> spec_fallback_title (job_description long_line_job).
Proof.
  repeat split; try (vm_compute; reflexivity).
  vm_compute. discriminate.
Qed.

(** C8, amended: for a posting whose [category] is missing or empty the
    resolved title is the first line of the first 200 characters of the
    description, trimmed and cut to 100 characters -- which is the first
    line of the description, trimmed and cut to 100 characters, whenever
    that line has at most 200 characters; and it is [Unknown Position] when
    the description is absent.  The resolver is a total function into
    strings. *)
Theorem C8_fallback_title (job : JobRow) :
  category job = None \/ category job = Some "" ->
  (job_description job = None -> resolve_title job = "Unknown Position")
  /\ (forall d, job_description job = Some d ->
        resolve_title job
        = PyStr.take 100 (PyStr.strip (first_line (PyStr.take 200 d)))
        /\ ((String.length (first_line d) <= 200)%nat ->
            resolve_title job = spec_fallback_title (job_description job))).
Proof.
  intros Hcat. rewrite (resolve_title_fallback job Hcat). split.
  - intros ->. reflexivity.
  - intros d Hd. rewrite Hd, extract_title_some. split.
    + now rewrite first_line_take.
    + intros Hlen. unfold spec_fallback_title. fold (first_line d).
      now rewrite (take_all 200 (first_line d) Hlen).
Qed.

(** The fallback title of a two-line description, and of a posting with
    neither title nor description. *)
Lemma C8_fallback_title_witness :
  resolve_title first_line_job = "Data Engineer"
  /\ resolve_title (mk_job (Some "") None None) = "Unknown Position".
Proof.
  split.
  - pose proof (C8_fallback_title
                  first_line_job (or_introl eq_refl)) as [_ H].
    destruct (H _ eq_refl) as [-> _]. vm_compute. reflexivity.
  - apply (C8_fallback_title (mk_job (Some "") None None)).
    + right. reflexivity.
    + reflexivity.
Defined.

(* ------------------------------------------------------------------ *)
(** ** C10: the level estimator *)

Lemma estimate_in_labels (d t : option string) :
  In (estimate_experience_level d t) estimator_labels.
Proof.
  unfold estimate_experience_level, estimator_labels.
  repeat match goal with
         | |- context [if any_in ?ws ?txt then _ else _] => destruct (any_in ws txt)
         end; simpl; tauto.
Qed.

Lemma labels_have_band (level : string) :
  In level estimator_labels ->
  level <> "" /\ level <> "Associate"
  /\ exists lo hi, lookup level level_ranges = Some (lo, hi)
                   /\ (lo, hi) <> (1, 3)%Z.
Proof.
  unfold estimator_labels. simpl.
  intros [<- | [<- | [<- | [<- | [<- | []]]]]];
    (split; [discriminate|]); (split; [discriminate|]);
    eexists; eexists; (split; [vm_compute; reflexivity | discriminate]).
Qed.

Lemma ladder_values (gap : Q) :
  ~ below_score gap == 0.5 /\ ~ above_score gap == 0.5.
Proof.
  unfold below_score, above_score.
  split;
    repeat match goal with
           | |- context [if Qle_bool ?a ?b then _ else _] => destruct (Qle_bool a b)
           end; intro H; vm_compute in H; discriminate.
Qed.

Lemma known_band_not_neutral (years : Q) (level : string) (lo hi : Z) :
  level <> "" -> lookup level level_ranges = Some (lo, hi) ->
  ~ calculate_experience_match years (Some level) == 0.5.
Proof.
  intros Hne Hband. unfold calculate_experience_match.
  destruct (String.eqb_spec level ""); [contradiction|].
  rewrite Hband.
  destruct (_ && _).
  - intro H. vm_compute in H. discriminate.
  - destruct (Qltb _ _); apply ladder_values.
Qed.

(** C10: the estimator answers one of five labels and never [Associate];
    so for a level it produced, the scorer finds a band in [level_ranges],
    that band is not the [Associate] band (1, 3), and the score does not
    come from the neutral 0.5 branches.  The level of every posting scored
    in the ranking pass is such a level. *)
Theorem C10_estimator_labels :
  (forall d t years,
      let level := estimate_experience_level d t in
      In level ["Internship"; "Entry level"; "Mid-Senior level"; "Director";
                "Executive"]
      /\ level <> "Associate"
      /\ level <> ""
      /\ (exists lo hi, lookup level level_ranges = Some (lo, hi)
                        /\ (lo, hi) <> (1, 3)%Z)
      /\ ~ calculate_experience_match years (Some level) == 0.5)
  /\ (forall resume_data job scores,
         calculate_overall_score resume_data job = inr scores ->
         estimated_level scores
         = estimate_experience_level (job_description job)
             (Some (resolve_title job))
         /\ forall years, experience_years resume_data = Some years ->
              exp_score scores
              = calculate_experience_match years (Some (estimated_level scores))).
Proof.
  split.
  - intros d t years level.
    pose proof (estimate_in_labels d t) as Hin. fold level in Hin.
    destruct (labels_have_band level Hin) as (Hne & Hna & lo & hi & Hband & Hnot).
    repeat split; auto.
    + now exists lo, hi.
    + now apply (known_band_not_neutral years level lo hi).
  - intros resume_data job scores. unfold calculate_overall_score.
    destruct (skills resume_data) as [sk|]; [|discriminate]. cbn [getitem bind ret].
    destruct (calculate_skill_match _ _ _ _) as [e|q]; [discriminate|].
    cbn [bind].
    destruct (experience_years resume_data) as [y|]; [|discriminate].
    cbn [getitem bind ret]. intros [= <-]. cbn. split; [reflexivity|].
    now intros years [= <-].
Qed.

(** A posting whose description says [associate] is scored as
    [Entry level]. *)
Lemma C10_estimator_labels_witness :
  estimated_level
    {| overall := 0.40000000; skill_score := 0; exp_score := 1.0;
       title_score := 0.5; estimated_level := "Entry level" |}
  = estimate_experience_level (Some "Sales associate wanted") (Some "Engineer").
Proof.
  apply (proj2 C10_estimator_labels (mk_resume ["python"] 1 [])
           (mk_job (Some "Engineer") (Some "Sales associate wanted") None)).
  vm_compute. reflexivity.
Defined.

(* ------------------------------------------------------------------ *)
(** ** The experience score over the rationals *)

Lemma Qle_bool_false (a b : Q) : Qle_bool a b = false -> b < a.
Proof.
  intros H. apply Qnot_le_lt. intros Hle.
  apply Qle_bool_iff in Hle. congruence.
Qed.

Ltac q_tests :=
  repeat match goal with
         | H : Qle_bool _ _ = true |- _ => apply Qle_bool_iff in H
         | H : Qle_bool _ _ = false |- _ => apply Qle_bool_false in H
         | H : negb _ = true |- _ => apply negb_true_iff in H
         | H : negb _ = false |- _ => apply negb_false_iff in H
         | H : _ && _ = true |- _ => apply andb_true_iff in H; destruct H
         end.

Lemma experience_in_band (years : Q) (level : string) (zlo zhi : Z) :
  level <> "" -> lookup level level_ranges = Some (zlo, zhi) ->
  calculate_experience_match years (Some level)
  = if Qle_bool (inject_Z zlo) years && Qle_bool years (inject_Z zhi) then 1.0
    else if Qltb years (inject_Z zlo) then below_score (inject_Z zlo - years)
    else above_score (years - inject_Z zhi).
Proof.
  intros Hne Hband. unfold calculate_experience_match.
  destruct (String.eqb_spec level ""); [contradiction|].
  now rewrite Hband.
Qed.

(* ------------------------------------------------------------------ *)
(** ** C3: the title score *)

Lemma title_scan_skip (jt : string) (skipped rest : list string) :
  (forall r, In r skipped -> length (common_words jt r) = 0%nat) ->
  title_scan jt (skipped ++ rest) = title_scan jt rest.
Proof.
  induction skipped as [|r skipped IH]; intros Hnone; [reflexivity|].
  cbn [app title_scan]. rewrite (Hnone r (or_introl eq_refl)).
  cbn. apply IH. intros r' Hr'. apply Hnone. now right.
Qed.

Lemma title_match_scan (t : string) (skipped : list string) (role : string)
    (rest : list string) :
  calculate_title_match (Some t) (skipped ++ role :: rest)
  = title_scan (PyStr.lower t) (skipped ++ role :: rest).
Proof.
  unfold calculate_title_match. now destruct skipped.
Qed.

(** C3, as stated, fails: against the title [Data Engineer] the role
    [Data Analyst] shares exactly one word and the later role
    [Senior Data Engineer] shares two, yet the score is 0.7 and not 1.0. *)
Lemma C3_counterexample :
  length (common_words (PyStr.lower "Data Engineer") "Data Analyst") = 1%nat
  /\ (2 <= length (common_words (PyStr.lower "Data Engineer")
                               "Senior Data Engineer"))%nat
  /\ calculate_title_match (Some "Data Engineer")
       ["Data Analyst"; "Senior Data Engineer"] == 0.7
  /\ ~ calculate_title_match (Some "Data Engineer")
         ["Data Analyst"; "Senior Data Engineer"] == 1.0.
Proof.
  split; [vm_compute; reflexivity|].
  split; [vm_compute; lia|].
  split; [vm_compute; reflexivity|].
  intro H. vm_compute in H. discriminate.
Qed.

(** C3, amended: the scan stops at the first desired role that shares a
    lower-cased word with the job title.  That role alone decides the
    score, whatever roles follow it: 0.7 when it shares exactly one word,
    1.0 when it shares two or more.  When no role shares a word the score
    is 0.3. *)
Theorem C3_first_overlap_decides (t : string) (skipped : list string)
    (role : string) (rest : list string) :
  (forall r, In r skipped ->
             length (common_words (PyStr.lower t) r) = 0%nat) ->
  (length (common_words (PyStr.lower t) role) = 1%nat ->
   calculate_title_match (Some t) (skipped ++ role :: rest) == 0.7)
  /\ ((2 <= length (common_words (PyStr.lower t) role))%nat ->
      calculate_title_match (Some t) (skipped ++ role :: rest) == 1.0)
  /\ (length (common_words (PyStr.lower t) role) = 0%nat ->
      (forall r, In r rest ->
                 length (common_words (PyStr.lower t) r) = 0%nat) ->
      calculate_title_match (Some t) (skipped ++ role :: rest) == 0.3).
Proof.
  intros Hskip. rewrite title_match_scan, (title_scan_skip _ _ _ Hskip).
  cbn [title_scan]. split; [|split].
  - intros ->. reflexivity.
  - intros H. apply Nat.leb_le in H. rewrite H. reflexivity.
  - intros -> Hrest. cbn.
    rewrite <- (app_nil_r rest), (title_scan_skip _ rest [] Hrest). reflexivity.
Qed.

(** A role without overlap is skipped; the next one shares one word and
    decides. *)
Lemma C3_first_overlap_decides_witness :
  calculate_title_match (Some "Data Engineer")
    ["Product Manager"; "Data Analyst"; "Senior Data Engineer"] == 0.7.
Proof.
  apply (C3_first_overlap_decides "Data Engineer" ["Product Manager"]
           "Data Analyst" ["Senior Data Engineer"]).
  - intros r [<- | []]. vm_compute. reflexivity.
  - vm_compute. reflexivity.
Defined.

(* ------------------------------------------------------------------ *)
(** ** C5: the skill score *)

Lemma Zpos_of_nat_succ (n : nat) : Z.pos (Pos.of_nat (S n)) = Z.of_nat (S n).
Proof.
  rewrite <- Pos.of_nat_succ, Zpos_P_of_succ_nat, Nat2Z.inj_succ. reflexivity.
Qed.

Lemma skill_match_total (sk : list string) (d t kw : option string) :
  exists q, calculate_skill_match sk d t kw = inr q /\ 0 <= q <= 1.
Proof.
  unfold calculate_skill_match. destruct sk as [|s0 sk'].
  - exists 0.0. split; [reflexivity|]. split; vm_compute; discriminate.
  - set (l := s0 :: sk').
    set (f := skill_matches (combined_text d t kw)).
    pose proof (filter_length_le f l) as Hle.
    assert (Hl : length l = S (length sk')) by reflexivity.
    rewrite Hl in *. cbn [truediv]. eexists. split; [reflexivity|].
    unfold Qle. cbn [Qnum Qden]. rewrite Zpos_of_nat_succ. split; lia.
Qed.

(** The scorer itself, handed the keywords of the posting, computes the
    score of section 4.3. *)
Lemma skill_match_with_keywords (sk : list string) (job : JobRow) :
  exists q,
    calculate_skill_match sk (job_description job) (Some (resolve_title job))
      (keywords job) = inr q
    /\ q == spec_skill_score sk job.
Proof.
  unfold calculate_skill_match, spec_skill_score. destruct sk as [|s0 sk'].
  - exists 0.0. split; reflexivity.
  - eexists. split; [reflexivity|].
    replace (combined_text (job_description job) (Some (resolve_title job))
               (keywords job))
      with (spec_matched_text job); [reflexivity|].
    unfold combined_text, spec_matched_text, keywords_given.
    destruct (keywords job) as [k|]; [|reflexivity].
    destruct (String.eqb k ""); reflexivity.
Qed.

(** C5 at a posting whose keywords alone name the skill: the ranking pass
    calls the skill scorer without the keywords, so the skill score is 0
    where section 4.3 gives 1 -- and where the scorer itself, handed the keywords,
    gives 1. *)
Lemma C5_keywords_left_out :
  (exists scores,
      calculate_overall_score (mk_resume ["python"] 4 []) keyword_job = inr scores
      /\ skill_score scores == 0)
  /\ spec_skill_score ["python"] keyword_job == 1
  /\ (exists q,
         calculate_skill_match ["python"] (job_description keyword_job)
           (Some (resolve_title keyword_job)) (keywords keyword_job) = inr q
         /\ q == 1).
Proof.
  split; [|split].
  - eexists. split; [vm_compute; reflexivity|]. reflexivity.
  - vm_compute. reflexivity.
  - eexists. split; [vm_compute; reflexivity|]. reflexivity.
Qed.

(* ------------------------------------------------------------------ *)
(** ** C9: the aggregated score *)

Lemma experience_match_bounds (years : Q) (level : option string) :
  0 <= calculate_experience_match years level <= 1.
Proof.
  unfold calculate_experience_match, below_score, above_score.
  destruct level as [level|]; [|split; vm_compute; discriminate].
  destruct (String.eqb level ""); [split; vm_compute; discriminate|].
  destruct (lookup level level_ranges) as [[lo hi]|];
    [|split; vm_compute; discriminate].
  repeat match goal with
         | |- context [if ?b then _ else _] => destruct b
         end; split; vm_compute; discriminate.
Qed.

Lemma title_scan_bounds (jt : string) (roles : list string) :
  0 <= title_scan jt roles <= 1.
Proof.
  induction roles as [|r roles IH]; cbn [title_scan].
  - split; vm_compute; discriminate.
  - destruct (2 <=? _)%nat; [split; vm_compute; discriminate|].
    destruct (_ =? 1)%nat; [split; vm_compute; discriminate|]. exact IH.
Qed.

Lemma title_match_bounds (t : option string) (roles : list string) :
  0 <= calculate_title_match t roles <= 1.
Proof.
  unfold calculate_title_match.
  destruct roles as [|r roles]; [split; vm_compute; discriminate|].
  destruct t as [t|]; [apply title_scan_bounds|split; vm_compute; discriminate].
Qed.

Lemma overall_score_run (resume_data : ResumeData) (job : JobRow)
    (sk : list string) (y : Q) :
  skills resume_data = Some sk -> experience_years resume_data = Some y ->
  exists q,
    calculate_skill_match sk (job_description job) (Some (resolve_title job)) None
    = inr q
    /\ 0 <= q <= 1
    /\ calculate_overall_score resume_data job
       = inr {| overall :=
                  q * weight_skills
                  + calculate_experience_match y
                      (Some (estimate_experience_level (job_description job)
                               (Some (resolve_title job)))) * weight_experience
                  + calculate_title_match (Some (resolve_title job))
                      (get_default (desired_roles resume_data) []) * weight_title;
                skill_score := q;
                exp_score :=
                  calculate_experience_match y
                    (Some (estimate_experience_level (job_description job)
                             (Some (resolve_title job))));
                title_score :=
                  calculate_title_match (Some (resolve_title job))
                    (get_default (desired_roles resume_data) []);
                estimated_level :=
                  estimate_experience_level (job_description job)
                    (Some (resolve_title job)) |}.
Proof.
  intros Hsk Hy.
  destruct (skill_match_total sk (job_description job)
              (Some (resolve_title job)) None) as (q & Hq & Hb).
  exists q. split; [exact Hq|]. split; [exact Hb|].
  unfold calculate_overall_score. rewrite Hsk, Hy. cbn [getitem bind ret].
  rewrite Hq. reflexivity.
Qed.

(** C9: for a structurally valid profile and any posting, the skill,
    experience and title scorers and the aggregated score all return a
    value, without raising, and every value lies in [0, 1]. *)
Theorem C9_scores_total_and_bounded (resume_data : ResumeData) (job : JobRow) :
  valid_profile resume_data ->
  exists sk y roles scores,
    skills resume_data = Some sk
    /\ experience_years resume_data = Some y
    /\ desired_roles resume_data = Some roles
    /\ (forall d t kw, exists q,
           calculate_skill_match sk d t kw = inr q /\ 0 <= q <= 1)
    /\ (forall level, 0 <= calculate_experience_match y level <= 1)
    /\ (forall t, 0 <= calculate_title_match t roles <= 1)
    /\ calculate_overall_score resume_data job = inr scores
    /\ 0 <= skill_score scores <= 1
    /\ 0 <= exp_score scores <= 1
    /\ 0 <= title_score scores <= 1
    /\ 0 <= overall scores <= 1.
Proof.
  intros ((sk & Hsk) & (y & Hy & _) & (roles & Hroles) & _).
  destruct (overall_score_run resume_data job sk y Hsk Hy) as (q & _ & Hq & Hrun).
  exists sk, y, roles. eexists.
  split; [exact Hsk|]. split; [exact Hy|]. split; [exact Hroles|].
  split; [intros; apply skill_match_total|].
  split; [intros; apply experience_match_bounds|].
  split; [intros; apply title_match_bounds|].
  split; [exact Hrun|]. cbn [skill_score exp_score title_score overall].
  pose proof (experience_match_bounds y
                (Some (estimate_experience_level (job_description job)
                         (Some (resolve_title job))))) as He.
  pose proof (title_match_bounds (Some (resolve_title job))
                (get_default (desired_roles resume_data) [])) as Ht.
  repeat split; try tauto;
    unfold weight_skills, weight_experience, weight_title; lra.
Qed.

(** The scenario of section 8: title missing, two skills matched. *)
Lemma C9_scores_total_and_bounded_witness :
  exists scores,
    calculate_overall_score (mk_resume ["python"; "sql"] 1.0 ["Senior Data Engineer"])
      (mk_job None (Some "Looking for a Python developer with SQL skills") None)
    = inr scores
    /\ 0 <= overall scores <= 1.
Proof.
  destruct (C9_scores_total_and_bounded
              (mk_resume ["python"; "sql"] 1.0 ["Senior Data Engineer"])
              (mk_job None (Some "Looking for a Python developer with SQL skills")
                 None))
    as (sk & y & roles & scores & _ & _ & _ & _ & _ & _ & Hrun & _ & _ & _ & Hb).
  - repeat split.
    + now exists ["python"; "sql"].
    + exists 1.0. split; [reflexivity | vm_compute; discriminate].
    + now exists ["Senior Data Engineer"].
    + now exists "Mid".
  - exists scores. split; assumption.
Defined.

(* ------------------------------------------------------------------ *)
(** ** Sorting by insertion meets the contract of [sort_values] *)

Section InsertionSort.

Variable goes_past : MatchResult -> MatchResult -> bool.

Hypothesis goes_past_true :
  forall r x, goes_past r x = true -> r_match_score r <= r_match_score x.
Hypothesis goes_past_false :
  forall r x, goes_past r x = false -> r_match_score x <= r_match_score r.

Lemma insert_by_perm (r : MatchResult) (rows : list MatchResult) :
  Permutation (r :: rows) (insert_by goes_past r rows).
Proof.
  induction rows as [|x xs IH]; cbn [insert_by]; [reflexivity|].
  destruct (goes_past r x); [|reflexivity].
  rewrite perm_swap. now constructor.
Qed.

Lemma sort_by_perm (rows : list MatchResult) :
  Permutation rows (sort_by goes_past rows).
Proof.
  induction rows as [|r rows IH]; cbn; [constructor|].
  rewrite <- insert_by_perm. now constructor.
Qed.

Lemma insert_by_descending (r : MatchResult) (rows : list MatchResult) :
  descending rows -> descending (insert_by goes_past r rows).
Proof.
  unfold descending.
  induction rows as [|x xs IH]; intros Hs; cbn [insert_by].
  - repeat constructor.
  - apply StronglySorted_inv in Hs as [Hxs Hall].
    destruct (goes_past r x) eqn:Hgo.
    + constructor; [now apply IH|].
      eapply Permutation_Forall; [apply insert_by_perm|].
      constructor; [now apply goes_past_true | exact Hall].
    + apply goes_past_false in Hgo.
      constructor; [now constructor|].
      constructor; [exact Hgo|].
      eapply Forall_impl; [|exact Hall]. cbn. intros b Hb.
      now apply Qle_trans with (r_match_score x).
Qed.

Lemma sort_by_contract : sort_values_contract (sort_by goes_past).
Proof.
  intros rows. split; [apply sort_by_perm|].
  induction rows as [|r rows IH]; cbn; [constructor|].
  now apply insert_by_descending.
Qed.

End InsertionSort.

Lemma stable_sort_contract : sort_values_contract stable_sort_desc.
Proof.
  apply sort_by_contract; unfold scores_less, Qltb; intros r x H.
  - apply negb_true_iff, Qle_bool_false in H. now apply Qlt_le_weak.
  - apply negb_false_iff in H. now apply Qle_bool_iff.
Qed.

Lemma descending_firstn (n : nat) (rows : list MatchResult) :
  descending rows -> descending (firstn n rows).
Proof.
  unfold descending. revert n.
  induction rows as [|x xs IH]; intros [|n] Hs; cbn [firstn]; try constructor.
  - apply IH. now apply StronglySorted_inv in Hs.
  - apply StronglySorted_inv in Hs as [_ Hall].
    rewrite Forall_forall in *. intros b Hb. apply Hall.
    rewrite <- (firstn_skipn n xs). apply in_or_app. now left.
Qed.

(* ------------------------------------------------------------------ *)
(** ** The ranking pass *)

Lemma overall_score_returns (resume_data : ResumeData) (job : JobRow) :
  valid_profile resume_data ->
  exists scores, calculate_overall_score resume_data job = inr scores.
Proof.
  intros ((sk & Hsk) & (y & Hy & _) & _).
  destruct (overall_score_run resume_data job sk y Hsk Hy) as (q & _ & _ & Hrun).
  eexists. exact Hrun.
Qed.

Lemma collect_results_spec (resume_data : ResumeData) (min_score : Q)
    (jobs : list JobRow) (results : list MatchResult) :
  valid_profile resume_data ->
  collect_results resume_data min_score jobs results
  = inr (results ++ spec_result_set resume_data min_score jobs).
Proof.
  intros Hvalid. revert results.
  induction jobs as [|job rest IH]; intros results; cbn [collect_results].
  - cbn. now rewrite app_nil_r.
  - destruct (overall_score_returns resume_data job Hvalid) as (scores & Hrun).
    unfold spec_result_set. cbn [flat_map]. rewrite Hrun. cbn [bind].
    fold (spec_result_set resume_data min_score rest). rewrite IH.
    destruct (Qle_bool min_score (overall scores)); [|reflexivity].
    now rewrite <- app_assoc.
Qed.

Lemma spec_result_set_length (resume_data : ResumeData) (min_score : Q)
    (jobs : list JobRow) :
  length (spec_result_set resume_data min_score jobs)
  = count_meeting resume_data min_score jobs.
Proof.
  unfold spec_result_set, count_meeting, meets_threshold.
  induction jobs as [|job rest IH]; [reflexivity|].
  cbn [flat_map filter]. rewrite length_app, IH.
  destruct (calculate_overall_score resume_data job) as [e|scores];
    [reflexivity|].
  destruct (Qle_bool min_score (overall scores)); reflexivity.
Qed.

Lemma spec_result_set_In (resume_data : ResumeData) (min_score : Q)
    (jobs : list JobRow) (r : MatchResult) :
  In r (spec_result_set resume_data min_score jobs) <->
  exists job scores,
    In job jobs /\ calculate_overall_score resume_data job = inr scores
    /\ min_score <= overall scores /\ r = make_result job scores.
Proof.
  unfold spec_result_set. rewrite in_flat_map. split.
  - intros (job & Hjob & Hr).
    destruct (calculate_overall_score resume_data job) as [e|scores] eqn:Hrun;
      [destruct Hr|].
    destruct (Qle_bool min_score (overall scores)) eqn:Hpass; [|destruct Hr].
    destruct Hr as [<- | []]. exists job, scores.
    repeat split; auto. now apply Qle_bool_iff.
  - intros (job & scores & Hjob & Hrun & Hpass & ->).
    exists job. split; [exact Hjob|]. rewrite Hrun.
    apply Qle_bool_iff in Hpass. rewrite Hpass. now left.
Qed.

Lemma head_firstn {A : Type} (n : Z) (rows : list A) :
  exists k, head n rows = firstn k rows.
Proof.
  unfold head. destruct (0 <=? n)%Z; eexists; reflexivity.
Qed.

Lemma head_length {A : Type} (n : Z) (rows : list A) :
  (0 <= n)%Z ->
  Z.of_nat (length (head n rows)) = Z.min n (Z.of_nat (length rows)).
Proof.
  intros Hn. unfold head. apply Z.leb_le in Hn as Hb. rewrite Hb.
  rewrite length_firstn. lia.
Qed.

Lemma firstn_In {A : Type} (k : nat) (rows : list A) (a : A) :
  In a (firstn k rows) -> In a rows.
Proof.
  intros H. rewrite <- (firstn_skipn k rows). apply in_or_app. now left.
Qed.

Lemma finding_matching_jobs_run
    (sort_values : list MatchResult -> list MatchResult)
    (resume_data : ResumeData) (jobs : list JobRow) (top_n : Z) (min_score : Q) :
  valid_profile resume_data ->
  finding_matching_jobs sort_values resume_data jobs top_n min_score
  = inr (match spec_result_set resume_data min_score jobs with
         | [] => []
         | _ :: _ =>
             head top_n (sort_values (spec_result_set resume_data min_score jobs))
         end).
Proof.
  intros Hvalid. unfold finding_matching_jobs.
  rewrite (collect_results_spec _ _ _ _ Hvalid). cbn [app bind].
  now destruct (spec_result_set resume_data min_score jobs).
Qed.

(** C1: for a valid profile, the result set holds a posting exactly when
    its overall score is at least [min_score]; every returned row scores at
    least [min_score] and every posting left out scores less; the returned
    sequence has [min top_n (number of postings meeting the threshold)]
    rows; and when no posting meets the threshold the pass returns the
    empty sequence, without raising. *)
Theorem C1_ranking_threshold
    (sort_values : list MatchResult -> list MatchResult)
    (resume_data : ResumeData) (jobs : list JobRow) (top_n : Z) (min_score : Q) :
  sort_values_contract sort_values ->
  valid_profile resume_data ->
  (0 <= top_n)%Z ->
  exists results out,
    collect_results resume_data min_score jobs [] = inr results
    /\ finding_matching_jobs sort_values resume_data jobs top_n min_score = inr out
    /\ (forall job, In job jobs ->
          exists scores,
            calculate_overall_score resume_data job = inr scores
            /\ (In (make_result job scores) results
                <-> min_score <= overall scores)
            /\ (~ In (make_result job scores) results
                -> overall scores < min_score))
    /\ (forall r, In r out -> In r results /\ min_score <= r_match_score r)
    /\ Z.of_nat (length out)
       = Z.min top_n (Z.of_nat (count_meeting resume_data min_score jobs))
    /\ (count_meeting resume_data min_score jobs = 0%nat -> out = []).
Proof.
  intros Hsort Hvalid Htop.
  set (results := spec_result_set resume_data min_score jobs).
  exists results. eexists.
  split; [apply (collect_results_spec _ _ _ [] Hvalid)|].
  split; [apply (finding_matching_jobs_run _ _ _ _ _ Hvalid)|].
  fold results.
  assert (Hiff : forall job scores,
             In job jobs ->
             calculate_overall_score resume_data job = inr scores ->
             (In (make_result job scores) results <-> min_score <= overall scores)).
  { intros job scores Hjob Hrun. unfold results. rewrite spec_result_set_In.
    split.
    - intros (job' & scores' & _ & _ & Hpass & Heq).
      apply (f_equal r_match_score) in Heq. cbn in Heq. now rewrite Heq.
    - intros Hpass. now exists job, scores. }
  split; [|split; [|split]].
  - intros job Hjob.
    destruct (overall_score_returns resume_data job Hvalid) as (scores & Hrun).
    exists scores. split; [exact Hrun|]. split; [now apply Hiff|].
    intros Hout. apply Qnot_le_lt. intros Hpass. apply Hout.
    now apply (Hiff job scores Hjob Hrun).
  - intros r Hr.
    assert (Hin : In r results).
    { destruct results as [|r0 rest] eqn:Hres; [destruct Hr|].
      destruct (head_firstn top_n (sort_values (r0 :: rest))) as (k & Hk).
      rewrite Hk in Hr. apply firstn_In in Hr.
      eapply Permutation_in; [symmetry; apply Hsort|exact Hr]. }
    split; [exact Hin|].
    unfold results in Hin. apply spec_result_set_In in Hin.
    destruct Hin as (job & scores & _ & _ & Hpass & ->). exact Hpass.
  - rewrite <- spec_result_set_length. fold results.
    destruct results as [|r0 rest] eqn:Hres; [cbn; lia|].
    rewrite (head_length _ _ Htop).
    now rewrite <- (Permutation_length (proj1 (Hsort (r0 :: rest)))).
  - rewrite <- spec_result_set_length. fold results.
    now destruct results.
Qed.

(** Three postings, two of them above the threshold, the best one asked
    for. *)
Lemma C1_ranking_threshold_witness :
  exists out,
    finding_matching_jobs stable_sort_desc python_resume
      [job_acme; keyword_job; job_bolt] 1 0.5 = inr out
    /\ Z.of_nat (length out)
       = Z.min 1 (Z.of_nat (count_meeting python_resume 0.5
                              [job_acme; keyword_job; job_bolt])).
Proof.
  destruct (C1_ranking_threshold stable_sort_desc python_resume
              [job_acme; keyword_job; job_bolt] 1 0.5)
    as (results & out & _ & Hrun & _ & _ & Hlen & _).
  - exact stable_sort_contract.
  - repeat split.
    + now exists ["python"].
    + exists 4. split; [reflexivity | vm_compute; discriminate].
    + now exists [].
    + now exists "Mid".
  - lia.
  - exists out. split; assumption.
Defined.


(* ------------------------------------------------------------------ *)
(** ** Further properties of the strings *)

Lemma take_length (n : nat) (s : string) : (String.length (PyStr.take n s) <= n)%nat.
Proof.
  revert s. induction n as [|n IH]; intros [|c r]; simpl; try lia.
  specialize (IH r). lia.
Qed.

Lemma has_char_take (c : ascii) (n : nat) (s : string) :
  has_char c s = false -> has_char c (PyStr.take n s) = false.
Proof.
  revert n. induction s as [|c' r IH]; intros [|n] H; try reflexivity.
  cbn in *. apply orb_false_iff in H as [-> H]. now rewrite IH.
Qed.

Lemma has_char_lstrip (c : ascii) (s : string) :
  has_char c s = false -> has_char c (PyStr.lstrip s) = false.
Proof.
  induction s as [|c' r IH]; intros H; [reflexivity|].
  cbn [PyStr.lstrip]. destruct (PyStr.isspace c'); [|exact H].
  cbn in H. apply orb_false_iff in H as [_ H]. now apply IH.
Qed.

Lemma has_char_rstrip (c : ascii) (s : string) :
  has_char c s = false -> has_char c (PyStr.rstrip s) = false.
Proof.
  induction s as [|c' r IH]; intros H; [reflexivity|].
  cbn in H. apply orb_false_iff in H as [Hc H]. specialize (IH H).
  cbn [PyStr.rstrip]. destruct (PyStr.rstrip r) as [|c2 r2].
  - destruct (PyStr.isspace c'); [reflexivity|]. cbn. now rewrite Hc.
  - cbn [has_char] in *. now rewrite Hc.
Qed.

Lemma has_char_first_line (s : string) : has_char newline (first_line s) = false.
Proof.
  unfold first_line. induction s as [|c r IH]; [reflexivity|].
  rewrite split_on_cons. destruct (Ascii.eqb c newline) eqn:Hc; [reflexivity|].
  cbn [has_char]. now rewrite Hc, IH.
Qed.

Lemma lstrip_idempotent (s : string) : PyStr.lstrip (PyStr.lstrip s) = PyStr.lstrip s.
Proof.
  induction s as [|c r IH]; [reflexivity|].
  cbn [PyStr.lstrip]. destruct (PyStr.isspace c) eqn:Hc; [exact IH|].
  cbn [PyStr.lstrip]. now rewrite Hc.
Qed.

Lemma rstrip_keeps_head (c : ascii) (r : string) :
  PyStr.isspace c = false -> exists r', PyStr.rstrip (String c r) = String c r'.
Proof.
  intros Hc. cbn [PyStr.rstrip]. destruct (PyStr.rstrip r) as [|c2 r2].
  - rewrite Hc. now exists "".
  - now exists (String c2 r2).
Qed.

Lemma lstrip_head (s : string) :
  match PyStr.lstrip s with
  | EmptyString => True
  | String c _ => PyStr.isspace c = false
  end.
Proof.
  induction s as [|c r IH]; [exact I|].
  cbn [PyStr.lstrip]. destruct (PyStr.isspace c) eqn:Hc; [exact IH|exact Hc].
Qed.

Lemma strip_head (s : string) :
  match PyStr.strip s with
  | EmptyString => True
  | String c _ => PyStr.isspace c = false
  end.
Proof.
  unfold PyStr.strip. pose proof (lstrip_head s) as H.
  destruct (PyStr.lstrip s) as [|c r]; [exact I|].
  destruct (rstrip_keeps_head c r H) as (r' & ->). exact H.
Qed.

(* ------------------------------------------------------------------ *)
(** ** X1: the extracted title *)

(** X1: whatever the description, the title extracted from it has at most
    100 characters, holds no line feed and does not start with white
    space. *)
Theorem X1_extracted_title_shape (description : option string) :
  let title := extract_title_from_description description in
  (String.length title <= 100)%nat
  /\ has_char newline title = false
  /\ match title with
     | EmptyString => True
     | String c _ => PyStr.isspace c = false
     end.
Proof.
  destruct description as [d|]; cbn zeta.
  - rewrite extract_title_some. split; [apply take_length|]. split.
    + apply has_char_take. unfold PyStr.strip.
      apply has_char_rstrip, has_char_lstrip, has_char_take, has_char_first_line.
    + pose proof (strip_head (PyStr.take 200 (first_line d))) as H.
      destruct (PyStr.strip (PyStr.take 200 (first_line d))) as [|c r];
        [exact I|exact H].
  - cbn. repeat split. lia.
Qed.

(* ------------------------------------------------------------------ *)
(** ** Further properties of the skill score *)

Lemma lower_char_idempotent (c : ascii) :
  PyStr.lower_char (PyStr.lower_char c) = PyStr.lower_char c.
Proof.
  destruct c as [[] [] [] [] [] [] [] []]; vm_compute; reflexivity.
Qed.

Lemma lower_idempotent (s : string) : PyStr.lower (PyStr.lower s) = PyStr.lower s.
Proof.
  induction s as [|c r IH]; [reflexivity|].
  cbn [PyStr.lower]. now rewrite lower_char_idempotent, IH.
Qed.

Lemma lower_append (a b : string) :
  PyStr.lower (a ++ b) = (PyStr.lower a ++ PyStr.lower b)%string.
Proof.
  induction a as [|c r IH]; [reflexivity|].
  cbn [append PyStr.lower]. now rewrite IH.
Qed.

Lemma append_assoc_str (a b c : string) :
  ((a ++ b) ++ c = a ++ (b ++ c))%string.
Proof.
  induction a as [|x r IH]; [reflexivity|]. cbn [append]. now rewrite IH.
Qed.

Lemma prefix_append (p h x : string) :
  prefix p h = true -> prefix p (h ++ x) = true.
Proof.
  revert h. induction p as [|c p IH]; intros h H;
    [now destruct (h ++ x)%string|].
  destruct h as [|c' h]; [discriminate|]. cbn [append prefix] in *.
  destruct (ascii_dec c c'); [now apply IH|discriminate].
Qed.

Lemma contains_append (needle hay x : string) :
  PyStr.contains needle hay = true -> PyStr.contains needle (hay ++ x) = true.
Proof.
  induction hay as [|c r IH]; intros H.
  - cbn in H. rewrite orb_false_r in H.
    destruct needle; [|discriminate]. now destruct x.
  - cbn [PyStr.contains] in H. apply orb_true_iff in H as [H | H].
    + apply (prefix_append _ _ x) in H. cbn [append] in *.
      cbn [PyStr.contains]. now rewrite H.
    + cbn [append PyStr.contains]. rewrite (IH H). apply orb_true_r.
Qed.

Lemma filter_none (A : Type) (f : A -> bool) (l : list A) :
  length (filter f l) = 0%nat <-> existsb f l = false.
Proof.
  induction l as [|x l IH]; cbn; [tauto|].
  destruct (f x); cbn; [split; discriminate|exact IH].
Qed.

Lemma filter_all (A : Type) (f : A -> bool) (l : list A) :
  length (filter f l) = length l <-> forallb f l = true.
Proof.
  split; [apply filter_length_forallb|].
  intros H. now rewrite (forallb_filter_id f l H).
Qed.

Lemma filter_length_mono (A : Type) (f g : A -> bool) (l : list A) :
  (forall x, f x = true -> g x = true) ->
  (length (filter f l) <= length (filter g l))%nat.
Proof.
  intros Himp. induction l as [|x l IH]; cbn; [lia|].
  destruct (f x) eqn:Hf.
  - rewrite (Himp x Hf). cbn. lia.
  - destruct (g x); cbn; lia.
Qed.

Lemma skill_match_nonempty (s0 : string) (rest : list string)
    (d t kw : option string) :
  calculate_skill_match (s0 :: rest) d t kw
  = inr (Z.of_nat (length (filter (skill_matches (combined_text d t kw))
                             (s0 :: rest)))
         # Pos.of_nat (S (length rest))).
Proof. reflexivity. Qed.

(** X2: for a non-empty skill list the skill score is 1 exactly when every
    skill occurs in the combined text, and 0 exactly when none does. *)
Theorem X2_skill_score_extremes (resume_skills : list string)
    (d t kw : option string) :
  resume_skills <> [] ->
  exists q,
    calculate_skill_match resume_skills d t kw = inr q
    /\ (q == 1 <->
        forallb (skill_matches (combined_text d t kw)) resume_skills = true)
    /\ (q == 0 <->
        existsb (skill_matches (combined_text d t kw)) resume_skills = false).
Proof.
  intros Hne. destruct resume_skills as [|s0 rest]; [contradiction|].
  rewrite skill_match_nonempty. eexists. split; [reflexivity|].
  rewrite <- filter_all, <- filter_none.
  unfold Qeq. cbn [Qnum Qden]. rewrite Zpos_of_nat_succ. cbn [length].
  split; split; intros H; lia.
Qed.

(** A list with one skill that occurs and one that does not scores
    neither 0 nor 1; a list whose skills all occur scores 1. *)
Lemma X2_skill_score_extremes_witness :
  exists q,
    calculate_skill_match ["Python"; "SQL"] (Some "python and sql pipelines")
      (Some "Data Engineer") None = inr q
    /\ q == 1.
Proof.
  destruct (X2_skill_score_extremes ["Python"; "SQL"]
              (Some "python and sql pipelines") (Some "Data Engineer") None)
    as (q & Hq & Hone & _); [discriminate|].
  exists q. split; [exact Hq|]. apply Hone. vm_compute. reflexivity.
Defined.

Lemma combined_text_keywords (d t kw : option string) :
  exists extra,
    combined_text d t kw = (combined_text d t None ++ extra)%string.
Proof.
  unfold combined_text. destruct (keywords_given kw).
  - exists (PyStr.lower (" " ++ PyStr.str kw)).
    cbn [keywords_given app PyStr.join String.concat].
    rewrite <- lower_append. f_equal.
    now rewrite !append_assoc_str.
  - exists "". cbn [keywords_given app PyStr.join String.concat].
    generalize (PyStr.lower (PyStr.str d ++ " " ++ PyStr.str t)). intros s.
    induction s as [|c r IH]; [reflexivity|]. cbn [append]. now rewrite <- IH.
Qed.

(** X3: handing the keywords of a posting to the skill scorer can only add
    matches: the score with keywords is at least the score without. *)
Theorem X3_keywords_only_add (resume_skills : list string)
    (d t kw : option string) :
  exists q0 q1,
    calculate_skill_match resume_skills d t None = inr q0
    /\ calculate_skill_match resume_skills d t kw = inr q1
    /\ q0 <= q1.
Proof.
  destruct resume_skills as [|s0 rest].
  - exists 0.0, 0.0. repeat split. vm_compute. discriminate.
  - rewrite !skill_match_nonempty. eexists. eexists.
    split; [reflexivity|]. split; [reflexivity|].
    unfold Qle. cbn [Qnum Qden].
    apply Z.mul_le_mono_nonneg_r; [lia|]. apply inj_le.
    apply filter_length_mono. intros skill. unfold skill_matches.
    destruct (combined_text_keywords d t kw) as (extra & ->).
    apply contains_append.
Qed.

Lemma filter_map_length (A B : Type) (g : A -> B) (f : B -> bool) (l : list A) :
  length (filter f (map g l)) = length (filter (fun x => f (g x)) l).
Proof.
  induction l as [|x l IH]; [reflexivity|]. cbn.
  destruct (f (g x)); cbn; now rewrite IH.
Qed.

Lemma skill_matches_lower (combined : string) (skill : string) :
  skill_matches combined skill = PyStr.contains (PyStr.lower skill) combined.
Proof. reflexivity. Qed.

(** X4: skill matching ignores letter case on both sides: two skill lists
    that agree once lower-cased, against two postings whose descriptions
    and titles agree once lower-cased, get the same score. *)
Theorem X4_skill_match_ignores_case (sk sk' : list string) (d d' t t' : string)
    (kw : option string) :
  map PyStr.lower sk = map PyStr.lower sk' ->
  PyStr.lower d = PyStr.lower d' ->
  PyStr.lower t = PyStr.lower t' ->
  calculate_skill_match sk (Some d) (Some t) kw
  = calculate_skill_match sk' (Some d') (Some t') kw.
Proof.
  intros Hsk Hd Ht.
  assert (Htext : combined_text (Some d) (Some t) kw
                  = combined_text (Some d') (Some t') kw).
  { unfold combined_text, PyStr.join, PyStr.str.
    destruct (keywords_given kw); cbn [app String.concat];
      rewrite !lower_append, Hd, Ht; reflexivity. }
  destruct sk as [|s0 rest], sk' as [|s0' rest'].
  - reflexivity.
  - cbn [map] in Hsk. discriminate Hsk.
  - cbn [map] in Hsk. discriminate Hsk.
  - rewrite !skill_match_nonempty, <- Htext.
    set (text := combined_text (Some d) (Some t) kw).
    assert (Hcount : forall l,
               length (filter (skill_matches text) l)
               = length (filter (fun s => PyStr.contains s text)
                           (map PyStr.lower l))).
    { intros l. now rewrite filter_map_length. }
    rewrite !Hcount, Hsk.
    assert (Hlen : length rest = length rest').
    { apply (f_equal (@length string)) in Hsk. cbn [map length] in Hsk.
      rewrite !length_map in Hsk. now injection Hsk. }
    now rewrite Hlen.
Qed.

Lemma X4_skill_match_ignores_case_witness :
  calculate_skill_match ["Python"; "sql"] (Some "PYTHON services") (Some "Engineer")
    None
  = calculate_skill_match ["python"; "SQL"] (Some "python Services")
      (Some "ENGINEER") None.
Proof.
  apply X4_skill_match_ignores_case; vm_compute; reflexivity.
Defined.

(** X5: a missing description enters the matched text as the word [nan]:
    a skill whose lower-cased form occurs in [nan] counts as matched for
    every posting without description, whatever its title and keywords. *)
Theorem X5_missing_description_reads_nan (skill : string) (t kw : option string) :
  PyStr.contains (PyStr.lower skill) "nan" = true ->
  exists q,
    calculate_skill_match [skill] None t kw = inr q /\ q == 1.
Proof.
  intros Hin. rewrite skill_match_nonempty. eexists. split; [reflexivity|].
  assert (Hm : skill_matches (combined_text None t kw) skill = true).
  { unfold skill_matches.
    destruct (combined_text_keywords None t kw) as (extra & ->).
    apply contains_append. unfold combined_text.
    cbn [app PyStr.join String.concat PyStr.str keywords_given].
    rewrite lower_append. now apply contains_append. }
  cbn [filter]. rewrite Hm. reflexivity.
Qed.

Lemma X5_missing_description_reads_nan_witness :
  exists q,
    calculate_skill_match ["NaN"] None (Some "Engineer") None = inr q /\ q == 1.
Proof.
  apply X5_missing_description_reads_nan. vm_compute. reflexivity.
Defined.

(* ------------------------------------------------------------------ *)
(** ** Further properties of the experience and title scores *)

Lemma level_ranges_key (level : string) (lo hi : Z) :
  lookup level level_ranges = Some (lo, hi) ->
  level <> "" /\ inject_Z lo <= inject_Z hi.
Proof.
  unfold level_ranges. cbn [lookup]. intros H.
  repeat match type of H with
         | context [String.eqb level ?k] =>
             destruct (String.eqb_spec level k) as [->|_]
         end; try discriminate; injection H as <- <-;
    (split; [discriminate | vm_compute; discriminate]).
Qed.

Lemma below_score_mono (g1 g2 : Q) :
  g1 <= g2 -> below_score g2 <= below_score g1.
Proof.
  intros Hle. unfold below_score.
  destruct (Qle_bool g1 0.5) eqn:A1; destruct (Qle_bool g1 1.0) eqn:A2;
    destruct (Qle_bool g1 1.5) eqn:A3; destruct (Qle_bool g1 2.0) eqn:A4;
    destruct (Qle_bool g2 0.5) eqn:B1; destruct (Qle_bool g2 1.0) eqn:B2;
    destruct (Qle_bool g2 1.5) eqn:B3; destruct (Qle_bool g2 2.0) eqn:B4;
    q_tests; try lra; vm_compute; discriminate.
Qed.

Lemma above_score_mono (g1 g2 : Q) :
  g1 <= g2 -> above_score g2 <= above_score g1.
Proof.
  intros Hle. unfold above_score.
  destruct (Qle_bool g1 1.0) eqn:A1; destruct (Qle_bool g1 2.0) eqn:A2;
    destruct (Qle_bool g1 3.0) eqn:A3;
    destruct (Qle_bool g2 1.0) eqn:B1; destruct (Qle_bool g2 2.0) eqn:B2;
    destruct (Qle_bool g2 3.0) eqn:B3;
    q_tests; try lra; vm_compute; discriminate.
Qed.

Lemma ladder_bounds (gap : Q) :
  0.30 <= below_score gap <= 1 /\ 0.40 <= above_score gap <= 1.
Proof.
  unfold below_score, above_score.
  repeat match goal with
         | |- context [if Qle_bool ?a ?b then _ else _] => destruct (Qle_bool a b)
         end; repeat split; vm_compute; discriminate.
Qed.

Lemma experience_regions (years : Q) (level : string) (lo hi : Z) :
  lookup level level_ranges = Some (lo, hi) ->
  (inject_Z lo <= years <= inject_Z hi ->
   calculate_experience_match years (Some level) = 1.0)
  /\ (years < inject_Z lo ->
      calculate_experience_match years (Some level)
      = below_score (inject_Z lo - years))
  /\ (inject_Z hi < years ->
      calculate_experience_match years (Some level)
      = above_score (years - inject_Z hi)).
Proof.
  intros Hband. destruct (level_ranges_key level lo hi Hband) as [Hne Hord].
  rewrite (experience_in_band years level lo hi Hne Hband). unfold Qltb.
  destruct (Qle_bool (inject_Z lo) years) eqn:Hlo;
    destruct (Qle_bool years (inject_Z hi)) eqn:Hhi; cbn [andb negb];
    q_tests; repeat split; intros; try reflexivity; lra.
Qed.

(** X6: for a level of the band table the experience score rises (weakly)
    with the years up to the band's minimum and falls (weakly) with the
    years from the band's maximum on; it is never below 0.30. *)
Theorem X6_experience_rises_then_falls (level : string) (lo hi : Z)
    (years1 years2 : Q) :
  lookup level level_ranges = Some (lo, hi) ->
  years1 <= years2 ->
  (years2 <= inject_Z lo ->
   calculate_experience_match years1 (Some level)
   <= calculate_experience_match years2 (Some level))
  /\ (inject_Z hi <= years1 ->
      calculate_experience_match years2 (Some level)
      <= calculate_experience_match years1 (Some level))
  /\ 0.30 <= calculate_experience_match years1 (Some level).
Proof.
  intros Hband Hle.
  destruct (level_ranges_key level lo hi Hband) as [_ Hord].
  destruct (experience_regions years1 level lo hi Hband) as (In1 & Lo1 & Hi1).
  destruct (experience_regions years2 level lo hi Hband) as (In2 & Lo2 & Hi2).
  split; [|split].
  - intros Hup. destruct (Qlt_le_dec years2 (inject_Z lo)) as [Hlt|Hge].
    + rewrite Lo1, Lo2 by lra. apply below_score_mono. lra.
    + rewrite In2 by lra. destruct (Qlt_le_dec years1 (inject_Z lo)) as [Hlt1|Hge1].
      * rewrite Lo1 by lra.
        apply Qle_trans with 1; [apply ladder_bounds | vm_compute; discriminate].
      * rewrite In1 by lra. apply Qle_refl.
  - intros Hdown. destruct (Qlt_le_dec (inject_Z hi) years1) as [Hlt|Hge].
    + rewrite Hi1, Hi2 by lra. apply above_score_mono. lra.
    + rewrite In1 by lra. destruct (Qlt_le_dec (inject_Z hi) years2) as [Hlt2|Hge2].
      * rewrite Hi2 by lra.
        apply Qle_trans with 1; [apply ladder_bounds | vm_compute; discriminate].
      * rewrite In2 by lra. apply Qle_refl.
  - destruct (Qlt_le_dec years1 (inject_Z lo)) as [Hlt|Hge].
    + rewrite Lo1 by lra. apply ladder_bounds.
    + destruct (Qlt_le_dec (inject_Z hi) years1) as [Hlt2|Hge2].
      * rewrite Hi1 by lra.
        apply Qle_trans with 0.40; [vm_compute; discriminate | apply ladder_bounds].
      * rewrite In1 by lra. vm_compute. discriminate.
Qed.

(** One year and two years against [Mid-Senior level] (band 3 to 8). *)
Lemma X6_experience_rises_then_falls_witness :
  calculate_experience_match 1 (Some "Mid-Senior level")
  <= calculate_experience_match 2 (Some "Mid-Senior level").
Proof.
  apply (X6_experience_rises_then_falls "Mid-Senior level" 3 8 1 2);
    vm_compute; try reflexivity; discriminate.
Defined.

Lemma title_scan_values (jt : string) (roles : list string) :
  title_scan jt roles = 1.0 \/ title_scan jt roles = 0.7
  \/ title_scan jt roles = 0.3.
Proof.
  induction roles as [|r roles IH]; cbn [title_scan]; [tauto|].
  destruct (2 <=? _)%nat; [tauto|]. destruct (_ =? 1)%nat; tauto.
Qed.

(** X7: the title score is one of 0.3, 0.5, 0.7 and 1.0, and it is the
    neutral 0.5 exactly when the list of desired roles is empty or the
    title is missing. *)
Theorem X7_title_score_values (job_title : option string)
    (resume_desired_roles : list string) :
  (calculate_title_match job_title resume_desired_roles = 0.3
   \/ calculate_title_match job_title resume_desired_roles = 0.5
   \/ calculate_title_match job_title resume_desired_roles = 0.7
   \/ calculate_title_match job_title resume_desired_roles = 1.0)
  /\ (calculate_title_match job_title resume_desired_roles == 0.5
      <-> resume_desired_roles = [] \/ job_title = None).
Proof.
  unfold calculate_title_match.
  destruct resume_desired_roles as [|r roles].
  - split; [tauto|]. split; [now left|reflexivity].
  - destruct job_title as [t|].
    + pose proof (title_scan_values (PyStr.lower t) (r :: roles)) as Hv.
      split; [tauto|]. split.
      * intros Heq. exfalso.
        destruct Hv as [Hv | [Hv | Hv]]; rewrite Hv in Heq;
          vm_compute in Heq; discriminate.
      * intros [H | H]; discriminate.
    + split; [tauto|]. split; [now right|reflexivity].
Qed.

(* ------------------------------------------------------------------ *)
(** ** Further properties of the aggregated score and of the ranking *)

Lemma overall_score_inv (resume_data : ResumeData) (job : JobRow) (scores : Scores) :
  calculate_overall_score resume_data job = inr scores ->
  exists sk y,
    skills resume_data = Some sk /\ experience_years resume_data = Some y.
Proof.
  unfold calculate_overall_score.
  destruct (skills resume_data) as [sk|]; [|discriminate]. cbn [getitem bind ret].
  destruct (calculate_skill_match _ _ _ _) as [e|q]; [discriminate|]. cbn [bind].
  destruct (experience_years resume_data) as [y|]; [|discriminate].
  intros _. now exists sk, y.
Qed.

Lemma experience_floor (years : Q) (level : option string) :
  0.30 <= calculate_experience_match years level.
Proof.
  unfold calculate_experience_match, below_score, above_score.
  destruct level as [level|]; [|vm_compute; discriminate].
  destruct (String.eqb level ""); [vm_compute; discriminate|].
  destruct (lookup level level_ranges) as [[lo hi]|]; [|vm_compute; discriminate].
  repeat match goal with
         | |- context [if ?b then _ else _] => destruct b
         end; vm_compute; discriminate.
Qed.

Lemma title_floor (t : option string) (roles : list string) :
  0.3 <= calculate_title_match t roles.
Proof.
  unfold calculate_title_match.
  destruct roles as [|r roles]; [vm_compute; discriminate|].
  destruct t as [t|]; [|vm_compute; discriminate].
  destruct (title_scan_values (PyStr.lower t) (r :: roles)) as [H | [H | H]];
    rewrite H; vm_compute; discriminate.
Qed.

Lemma overall_score_shape (resume_data : ResumeData) (job : JobRow)
    (scores : Scores) :
  calculate_overall_score resume_data job = inr scores ->
  exists q e t,
    overall scores = q * 0.50 + e * 0.30 + t * 0.20
    /\ exp_score scores = e
    /\ 0 <= q <= 1 /\ 0.30 <= e /\ 0.3 <= t.
Proof.
  intros Hrun.
  destruct (overall_score_inv _ _ _ Hrun) as (sk & y & Hsk & Hy).
  destruct (overall_score_run resume_data job sk y Hsk Hy) as (q & _ & Hq & Hrun').
  assert (Heq : inr scores = inr _ :> result Scores)
    by (rewrite <- Hrun; exact Hrun').
  assert (Hs : scores = _) by (apply (f_equal (fun r => match r with
                                                        | inr s => s
                                                        | inl _ => scores
                                                        end)) in Heq; exact Heq).
  exists q,
    (calculate_experience_match y
       (Some (estimate_experience_level (job_description job)
                (Some (resolve_title job))))),
    (calculate_title_match (Some (resolve_title job))
       (get_default (desired_roles resume_data) [])).
  split; [rewrite Hs; reflexivity|]. split; [rewrite Hs; reflexivity|].
  split; [exact Hq|]. split; [apply experience_floor | apply title_floor].
Qed.



Lemma all_meet_low_threshold (resume_data : ResumeData) (min_score : Q)
    (jobs : list JobRow) :
  valid_profile resume_data -> min_score <= 0.15 ->
  count_meeting resume_data min_score jobs = length jobs.
Proof.
  intros Hvalid Hmin. unfold count_meeting. apply filter_all.
  apply forallb_forall. intros job _. unfold meets_threshold.
  destruct (overall_score_returns resume_data job Hvalid) as (scores & Hrun).
  rewrite Hrun. apply Qle_bool_iff.
  apply Qle_trans with 0.15; [exact Hmin|].
  destruct (overall_score_shape _ _ _ Hrun) as (q & e & t & Ho & _ & Hq & Hfe & Hft).
  rewrite Ho. lra.
Qed.

(** X9: a threshold of at most 0.15 filters nothing: for a valid profile
    every posting of the catalog enters the result set, and the pass
    returns [min top_n (size of the catalog)] rows. *)
Theorem X9_low_threshold_keeps_all
    (sort_values : list MatchResult -> list MatchResult)
    (resume_data : ResumeData) (jobs : list JobRow) (top_n : Z) (min_score : Q) :
  sort_values_contract sort_values ->
  valid_profile resume_data ->
  (0 <= top_n)%Z ->
  min_score <= 0.15 ->
  exists results out,
    collect_results resume_data min_score jobs [] = inr results
    /\ length results = length jobs
    /\ finding_matching_jobs sort_values resume_data jobs top_n min_score = inr out
    /\ Z.of_nat (length out) = Z.min top_n (Z.of_nat (length jobs)).
Proof.
  intros Hsort Hvalid Htop Hmin.
  pose proof (all_meet_low_threshold resume_data min_score jobs Hvalid Hmin) as Hall.
  exists (spec_result_set resume_data min_score jobs). eexists.
  split; [apply (collect_results_spec _ _ _ [] Hvalid)|].
  split; [now rewrite spec_result_set_length|].
  split; [apply (finding_matching_jobs_run _ _ _ _ _ Hvalid)|].
  rewrite <- Hall, <- spec_result_set_length.
  destruct (spec_result_set resume_data min_score jobs) as [|r0 rest] eqn:Hres;
    [cbn; lia|].
  rewrite (head_length _ _ Htop).
  now rewrite <- (Permutation_length (proj1 (Hsort (r0 :: rest)))).
Qed.

Lemma X9_low_threshold_keeps_all_witness :
  exists out,
    finding_matching_jobs stable_sort_desc (mk_resume ["cobol"] 40 ["Chef"])
      [job_acme; keyword_job; job_bolt] 10 0.1 = inr out
    /\ Z.of_nat (length out) = 3%Z.
Proof.
  destruct (X9_low_threshold_keeps_all stable_sort_desc
              (mk_resume ["cobol"] 40 ["Chef"])
              [job_acme; keyword_job; job_bolt] 10 0.1)
    as (results & out & _ & _ & Hrun & Hlen).
  - exact stable_sort_contract.
  - repeat split.
    + now exists ["cobol"].
    + exists 40. split; [reflexivity | vm_compute; discriminate].
    + now exists ["Chef"].
    + now exists "Mid".
  - lia.
  - vm_compute. discriminate.
  - exists out. split; [exact Hrun|exact Hlen].
Defined.

(** X10: what the ranking pass does with an incomplete resume dict, one
    whose entries, when they are there, have their types ([skills] a
    list).  On an empty catalog it returns the empty sequence, whichever
    keys are absent; on a catalog with at least one posting it raises
    [KeyError('skills')] when the key [skills] is absent, and
    [KeyError('experience_years')] when only that key is absent; an absent
    [desired_roles] raises nothing and scores like an empty list. *)
Theorem X10_missing_keys
    (sort_values : list MatchResult -> list MatchResult)
    (resume_data : ResumeData) (top_n : Z) (min_score : Q) :
  finding_matching_jobs sort_values resume_data [] top_n min_score = inr []
  /\ (skills resume_data = None ->
      forall job rest,
        finding_matching_jobs sort_values resume_data (job :: rest) top_n min_score
        = inl (KeyError "skills"))
  /\ (forall sk,
        skills resume_data = Some sk -> experience_years resume_data = None ->
        forall job rest,
          finding_matching_jobs sort_values resume_data (job :: rest) top_n
            min_score
          = inl (KeyError "experience_years"))
  /\ (desired_roles resume_data = None ->
      forall job,
        calculate_overall_score resume_data job
        = calculate_overall_score
            {| skills := skills resume_data;
               experience_years := experience_years resume_data;
               desired_roles := Some [];
               career_level := career_level resume_data |} job).
Proof.
  split; [reflexivity|]. split; [|split].
  - intros Hsk job rest.
    unfold finding_matching_jobs. cbn [collect_results].
    unfold calculate_overall_score. rewrite Hsk. reflexivity.
  - intros sk Hsk Hy job rest.
    unfold finding_matching_jobs. cbn [collect_results].
    unfold calculate_overall_score. rewrite Hsk, Hy. cbn [getitem bind ret].
    destruct (skill_match_total sk (job_description job)
                (Some (resolve_title job)) None) as (q & -> & _).
    reflexivity.
  - intros Hroles job. unfold calculate_overall_score.
    cbn [skills experience_years desired_roles]. rewrite Hroles. reflexivity.
Qed.

(** A dict without [skills] against a catalog of one posting. *)
Lemma X10_missing_keys_witness :
  finding_matching_jobs stable_sort_desc
    {| skills := None; experience_years := Some 2; desired_roles := None;
       career_level := None |} [job_acme] 10 0.3
  = inl (KeyError "skills").
Proof.
  apply (proj1 (proj2 (X10_missing_keys stable_sort_desc
                         {| skills := None; experience_years := Some 2;
                            desired_roles := None; career_level := None |}
                         10 0.3))).
  reflexivity.
Defined.

Lemma descending_app (l1 l2 : list MatchResult) :
  descending (l1 ++ l2) ->
  forall a b, In a l1 -> In b l2 -> r_match_score b <= r_match_score a.
Proof.
  unfold descending. induction l1 as [|x l1 IH]; intros Hs a b Ha Hb;
    [destruct Ha|].
  cbn [app] in Hs. apply StronglySorted_inv in Hs as [Hs Hall].
  destruct Ha as [<- | Ha].
  - rewrite Forall_forall in Hall. apply Hall, in_or_app. now right.
  - now apply IH.
Qed.

(** X11: the rows returned are the best ones: the rows of the result set
    split into the rows returned and the rows cut off by [top_n], and no
    row cut off scores more than a row returned. *)
Theorem X11_top_n_are_best
    (sort_values : list MatchResult -> list MatchResult)
    (resume_data : ResumeData) (jobs : list JobRow) (top_n : Z) (min_score : Q) :
  sort_values_contract sort_values ->
  valid_profile resume_data ->
  exists results out cut,
    collect_results resume_data min_score jobs [] = inr results
    /\ finding_matching_jobs sort_values resume_data jobs top_n min_score = inr out
    /\ Permutation results (out ++ cut)
    /\ forall r r', In r out -> In r' cut ->
                    r_match_score r' <= r_match_score r.
Proof.
  intros Hsort Hvalid.
  set (results := spec_result_set resume_data min_score jobs).
  destruct results as [|r0 rest] eqn:Hres.
  - exists [], [], [].
    split; [rewrite (collect_results_spec _ _ _ [] Hvalid); fold results;
            now rewrite Hres|].
    split; [rewrite (finding_matching_jobs_run _ _ _ _ _ Hvalid); fold results;
            now rewrite Hres|].
    split; [constructor|]. intros r r' [].
  - destruct (head_firstn top_n (sort_values (r0 :: rest))) as (k & Hk).
    exists (r0 :: rest), (firstn k (sort_values (r0 :: rest))),
      (skipn k (sort_values (r0 :: rest))).
    split; [rewrite (collect_results_spec _ _ _ [] Hvalid); fold results;
            now rewrite Hres|].
    split; [rewrite (finding_matching_jobs_run _ _ _ _ _ Hvalid); fold results;
            now rewrite Hres, Hk|].
    rewrite firstn_skipn. split; [apply Hsort|].
    intros r r' Hr Hr'.
    apply (descending_app (firstn k (sort_values (r0 :: rest)))
             (skipn k (sort_values (r0 :: rest)))); auto.
    rewrite firstn_skipn. apply Hsort.
Qed.

Lemma X11_top_n_are_best_witness :
  exists out cut,
    finding_matching_jobs stable_sort_desc python_resume
      [keyword_job; job_acme; job_bolt] 1 0.3 = inr out
    /\ forall r r', In r out -> In r' cut ->
                    r_match_score r' <= r_match_score r.
Proof.
  destruct (X11_top_n_are_best stable_sort_desc python_resume
              [keyword_job; job_acme; job_bolt] 1 0.3)
    as (results & out & cut & _ & Hrun & _ & Hbest).
  - exact stable_sort_contract.
  - repeat split.
    + now exists ["python"].
    + exists 4. split; [reflexivity | vm_compute; discriminate].
    + now exists [].
    + now exists "Mid".
  - exists out, cut. split; [exact Hrun|exact Hbest].
Defined.

(** X12: when at least one row is asked for and some posting reaches the
    threshold, the first row returned scores at least as much as every
    posting of the catalog. *)
Theorem X12_first_row_is_best
    (sort_values : list MatchResult -> list MatchResult)
    (resume_data : ResumeData) (jobs : list JobRow) (top_n : Z) (min_score : Q) :
  sort_values_contract sort_values ->
  valid_profile resume_data ->
  (1 <= top_n)%Z ->
  (0 < count_meeting resume_data min_score jobs)%nat ->
  exists best others,
    finding_matching_jobs sort_values resume_data jobs top_n min_score
    = inr (best :: others)
    /\ min_score <= r_match_score best
    /\ forall job scores,
         In job jobs -> calculate_overall_score resume_data job = inr scores ->
         overall scores <= r_match_score best.
Proof.
  intros Hsort Hvalid Htop Hcount.
  rewrite (finding_matching_jobs_run _ _ _ _ _ Hvalid).
  rewrite <- spec_result_set_length in Hcount.
  set (results := spec_result_set resume_data min_score jobs) in *.
  destruct results as [|r0 rest] eqn:Hres; [cbn in Hcount; lia|].
  destruct (Hsort (r0 :: rest)) as [Hperm Hdesc].
  destruct (sort_values (r0 :: rest)) as [|best sorted] eqn:Hsorted.
  { apply Permutation_length in Hperm. discriminate Hperm. }
  unfold head. apply Z.leb_le in Htop as Hb.
  assert (H0 : (0 <=? top_n)%Z = true) by (apply Z.leb_le; lia). rewrite H0.
  destruct (Z.to_nat top_n) as [|n] eqn:Hn; [lia|]. cbn [firstn].
  exists best, (firstn n sorted). split; [reflexivity|].
  assert (Hin : In best (r0 :: rest))
    by (eapply Permutation_in; [symmetry; exact Hperm|now left]).
  assert (Hpass : min_score <= r_match_score best).
  { rewrite <- Hres in Hin. unfold results in Hin.
    apply spec_result_set_In in Hin.
    destruct Hin as (job & scores & _ & _ & Hp & ->). exact Hp. }
  split; [exact Hpass|].
  intros job scores Hjob Hrun.
  destruct (Qlt_le_dec (overall scores) min_score) as [Hlow | Hok].
  - apply Qlt_le_weak. now apply Qlt_le_trans with min_score.
  - assert (Hr : In (make_result job scores) (best :: sorted)).
    { eapply Permutation_in; [exact Hperm|]. rewrite <- Hres. unfold results.
      apply spec_result_set_In. now exists job, scores. }
    destruct Hr as [Hr | Hr]; [rewrite Hr; apply Qle_refl|].
    unfold descending in Hdesc. apply StronglySorted_inv in Hdesc as [_ Hall].
    rewrite Forall_forall in Hall. apply (Hall _ Hr).
Qed.

Lemma X12_first_row_is_best_witness :
  exists best others,
    finding_matching_jobs stable_sort_desc python_resume
      [keyword_job; job_acme; job_bolt] 2 0.3 = inr (best :: others)
    /\ 0.3 <= r_match_score best.
Proof.
  destruct (X12_first_row_is_best stable_sort_desc python_resume
              [keyword_job; job_acme; job_bolt] 2 0.3)
    as (best & others & Hrun & Hpass & _).
  - exact stable_sort_contract.
  - repeat split.
    + now exists ["python"].
    + exists 4. split; [reflexivity | vm_compute; discriminate].
    + now exists [].
    + now exists "Mid".
  - lia.
  - vm_compute. lia.
  - exists best, others. split; [exact Hrun|exact Hpass].
Defined.

(* ------------------------------------------------------------------ *)
(** ** The analyzer: preparing the text *)

Lemma take_prefix (n : nat) (s : string) :
  exists rest, s = (PyStr.take n s ++ rest)%string.
Proof.
  revert s. induction n as [|n IH]; intros s.
  - exists s. now destruct s.
  - destruct s as [|c r]; [now exists ""|].
    destruct (IH r) as (rest & Hr). exists rest. cbn. now rewrite <- Hr.
Qed.

Lemma take_take (n m : nat) (s : string) :
  PyStr.take n (PyStr.take m s) = PyStr.take (Nat.min n m) s.
Proof.
  revert m s. induction n as [|n IH]; intros [|m] [|c r]; try reflexivity.
  cbn. now rewrite IH.
Qed.

Lemma take_length_eq (n : nat) (s : string) :
  String.length (PyStr.take n s) = Nat.min n (String.length s).
Proof.
  revert s. induction n as [|n IH]; intros [|c r]; try reflexivity.
  cbn. now rewrite IH.
Qed.

Lemma rfind_char_range (c : ascii) (s : string) :
  (rfind_char c s = -1 \/ 0 <= rfind_char c s < Z.of_nat (String.length s))%Z.
Proof.
  induction s as [|c' r IH]; [now left|].
  cbn [rfind_char String.length].
  destruct (0 <=? rfind_char c r)%Z eqn:Hi.
  - apply Z.leb_le in Hi. right. lia.
  - destruct (Ascii.eqb c' c); [right; lia | now left].
Qed.

Lemma rfind_char_split (c : ascii) (s : string) :
  (0 <= rfind_char c s)%Z ->
  exists tail,
    s = (PyStr.take (Z.to_nat (rfind_char c s)) s ++ String c tail)%string
    /\ has_char c tail = false.
Proof.
  induction s as [|c' r IH]; [cbn; lia|].
  cbn [rfind_char].
  destruct (0 <=? rfind_char c r)%Z eqn:Hi.
  - apply Z.leb_le in Hi. intros _. destruct (IH Hi) as (tail & Hr & Htail).
    exists tail. split; [|exact Htail].
    replace (Z.to_nat (rfind_char c r + 1)) with (S (Z.to_nat (rfind_char c r)))
      by lia.
    cbn. now rewrite <- Hr.
  - apply Z.leb_gt in Hi. destruct (Ascii.eqb_spec c' c) as [->|Hne]; [|lia].
    intros _. exists r. split; [reflexivity|].
    clear IH. induction r as [|c2 r2 IH2]; [reflexivity|].
    cbn [rfind_char] in Hi.
    destruct (0 <=? rfind_char c r2)%Z eqn:Hi2.
    + apply Z.leb_le in Hi2. lia.
    + destruct (Ascii.eqb c2 c) eqn:Hc2; [lia|].
      cbn. rewrite Hc2. apply IH2. apply Z.leb_gt in Hi2. exact Hi2.
Qed.

Lemma rfind_char_none (c : ascii) (s : string) :
  (rfind_char c s = -1)%Z -> has_char c s = false.
Proof.
  induction s as [|c' r IH]; [reflexivity|].
  cbn [rfind_char has_char].
  destruct (0 <=? rfind_char c r)%Z eqn:Hi.
  - apply Z.leb_le in Hi. lia.
  - destruct (Ascii.eqb c' c); [lia|]. intros _. cbn.
    destruct (rfind_char_range c r) as [H | H]; [now apply IH|].
    apply Z.leb_gt in Hi. lia.
Qed.

(** X13: the prepared text is a prefix of the resume text of at most 4000
    characters; a resume of at most 4000 characters is handed over
    unchanged; and preparing a prepared text changes nothing. *)
Theorem X13_prepared_text_bounded (resume_text : string) :
  (String.length (prepare_text resume_text) <= 4000)%nat
  /\ (exists rest, resume_text = (prepare_text resume_text ++ rest)%string)
  /\ ((String.length resume_text <= 4000)%nat ->
      prepare_text resume_text = resume_text)
  /\ prepare_text (prepare_text resume_text) = prepare_text resume_text.
Proof.
  assert (Hlen : (String.length (prepare_text resume_text) <= max_char)%nat).
  { unfold prepare_text.
    destruct (String.length resume_text <=? max_char)%nat eqn:Hle;
      [now apply Nat.leb_le|].
    destruct (0 <? _)%Z.
    - rewrite take_take, take_length_eq. lia.
    - apply take_length. }
  split; [exact Hlen|]. split; [|split].
  - unfold prepare_text.
    destruct (String.length resume_text <=? max_char)%nat;
      [exists ""; clear; induction resume_text as [|c r IH];
       [reflexivity | cbn; now rewrite <- IH]|].
    destruct (0 <? _)%Z; [rewrite take_take|]; apply take_prefix.
  - intros H. unfold prepare_text.
    apply Nat.leb_le in H. fold max_char in H. now rewrite H.
  - unfold prepare_text at 1. apply Nat.leb_le in Hlen. now rewrite Hlen.
Qed.

(** X14: a longer resume is cut inside its first 4000 characters at the
    last space that is not the first character: the prepared text is what
    stands before that space, and no space stands between it and
    character 4000.  When there is no such space the first 4000 characters
    are kept whole. *)
Theorem X14_cut_at_last_space (resume_text : string) :
  (4000 < String.length resume_text)%nat ->
  let truncated := PyStr.take 4000 resume_text in
  ((0 < rfind_char " " truncated)%Z ->
   exists tail,
     truncated = (prepare_text resume_text ++ String " " tail)%string
     /\ has_char " " tail = false
     /\ (0 < String.length (prepare_text resume_text) < 4000)%nat)
  /\ ((rfind_char " " truncated <= 0)%Z ->
      prepare_text resume_text = truncated).
Proof.
  intros Hlong truncated. unfold prepare_text, max_char.
  assert (Hgt : (String.length resume_text <=? 4000)%nat = false)
    by (apply Nat.leb_gt; exact Hlong).
  rewrite Hgt. cbv zeta. fold truncated. split.
  - intros Hpos. apply Z.ltb_lt in Hpos as Hb. rewrite Hb.
    destruct (rfind_char_split " " truncated) as (tail & Hsplit & Htail); [lia|].
    exists tail. split; [exact Hsplit|]. split; [exact Htail|].
    rewrite take_length_eq.
    destruct (rfind_char_range " " truncated) as [H | H]; [lia|].
    assert (Ht : String.length truncated = 4000%nat).
    { unfold truncated. rewrite take_length_eq. lia. }
    lia.
  - intros Hnone. apply Z.ltb_ge in Hnone. now rewrite Hnone.
Qed.

(** A resume of 4005 characters with one space, its third character: the
    prepared text is what stands before that space. *)
Lemma X14_cut_at_last_space_witness :
  exists tail,
    PyStr.take 4000 long_resume
    = (prepare_text long_resume ++ String " " tail)%string
    /\ has_char " " tail = false.
Proof.
  assert (Hlong : (4000 < String.length long_resume)%nat)
    by (apply Nat.ltb_lt; vm_compute; reflexivity).
  destruct (proj1 (X14_cut_at_last_space long_resume Hlong))
    as (tail & Hcut & Htail & _); [vm_compute; reflexivity|].
  exists tail. split; [exact Hcut|exact Htail].
Defined.

(* ------------------------------------------------------------------ *)
(** ** The analyzer: cleaning the response *)

Lemma append_nil_r_str (s : string) : (s ++ "")%string = s.
Proof. induction s as [|c r IH]; [reflexivity|]. cbn. now rewrite IH. Qed.

Lemma rstrip_idempotent (s : string) : PyStr.rstrip (PyStr.rstrip s) = PyStr.rstrip s.
Proof.
  induction s as [|c r IH]; [reflexivity|].
  cbn [PyStr.rstrip]. destruct (PyStr.rstrip r) as [|c2 r2] eqn:Hr.
  - destruct (PyStr.isspace c) eqn:Hc; [reflexivity|].
    cbn [PyStr.rstrip]. now rewrite Hc.
  - cbn [PyStr.rstrip]. cbn [PyStr.rstrip] in IH.
    destruct (PyStr.rstrip r2) as [|c3 r3].
    + destruct (PyStr.isspace c2); [discriminate|]. congruence.
    + congruence.
Qed.

Lemma strip_idempotent (s : string) : PyStr.strip (PyStr.strip s) = PyStr.strip s.
Proof.
  unfold PyStr.strip.
  assert (Hl : PyStr.lstrip (PyStr.rstrip (PyStr.lstrip s))
               = PyStr.rstrip (PyStr.lstrip s)).
  { pose proof (lstrip_head s) as Hh.
    destruct (PyStr.lstrip s) as [|c r]; [reflexivity|].
    destruct (rstrip_keeps_head c r Hh) as (r' & ->).
    cbn [PyStr.lstrip]. now rewrite Hh. }
  rewrite Hl. apply rstrip_idempotent.
Qed.

Lemma rstrip_prefix (s : string) : exists tail, s = (PyStr.rstrip s ++ tail)%string.
Proof.
  induction s as [|c r IH]; [now exists ""|].
  destruct IH as (tail & Hr). cbn [PyStr.rstrip].
  destruct (PyStr.rstrip r) as [|c2 r2].
  - destruct (PyStr.isspace c); [now exists (String c r)|].
    exists tail. cbn in *. now rewrite <- Hr.
  - exists tail. cbn in *. now rewrite <- Hr.
Qed.

Lemma contains_lstrip (needle s : string) :
  PyStr.contains needle (PyStr.lstrip s) = true -> PyStr.contains needle s = true.
Proof.
  induction s as [|c r IH]; [trivial|].
  cbn [PyStr.lstrip]. destruct (PyStr.isspace c); [|trivial].
  intros H. cbn [PyStr.contains]. rewrite (IH H). apply orb_true_r.
Qed.

Lemma contains_strip (needle s : string) :
  PyStr.contains needle s = false -> PyStr.contains needle (PyStr.strip s) = false.
Proof.
  intros Hno. destruct (PyStr.contains needle (PyStr.strip s)) eqn:H; [|reflexivity].
  unfold PyStr.strip in H.
  destruct (rstrip_prefix (PyStr.lstrip s)) as (tail & Htail).
  apply (contains_append _ _ tail) in H. rewrite <- Htail in H.
  apply contains_lstrip in H. congruence.
Qed.

Lemma prefix_nil_false (c : ascii) (sep : string) : prefix (String c sep) "" = false.
Proof. reflexivity. Qed.

Lemma before_first_prefix (sep s : string) :
  exists rest, s = (before_first sep s ++ rest)%string.
Proof.
  induction s as [|c r IH]; [now exists ""|].
  cbn [before_first]. destruct (prefix sep (String c r)); [now exists (String c r)|].
  destruct IH as (rest & Hr). exists rest. cbn. now rewrite <- Hr.
Qed.

Lemma before_first_clean (c0 : ascii) (sep0 s : string) :
  PyStr.contains (String c0 sep0) (before_first (String c0 sep0) s) = false.
Proof.
  set (sep := String c0 sep0).
  induction s as [|c r IH]; [reflexivity|].
  cbn [before_first]. destruct (prefix sep (String c r)) eqn:Hp; [reflexivity|].
  cbn [PyStr.contains]. rewrite IH, orb_false_r.
  destruct (prefix sep (String c (before_first sep r))) eqn:Hq; [|reflexivity].
  destruct (before_first_prefix sep r) as (rest & Hr).
  apply (prefix_append _ _ rest) in Hq. cbn [append] in Hq.
  rewrite <- Hr in Hq. congruence.
Qed.

Lemma split_skip_drop (sep : string) (k : nat) (cur s : string) :
  split_str_from sep k cur s = split_str_from sep 0 cur (drop k s).
Proof.
  revert k. induction s as [|c r IH]; intros [|k]; try reflexivity.
  cbn [split_str_from drop]. apply IH.
Qed.

Lemma split_str_unfold (c0 : ascii) (sep0 cur s : string) :
  split_str_from (String c0 sep0) 0 cur s
  = (cur ++ before_first (String c0 sep0) s)%string
    :: match after_first (String c0 sep0) s with
       | Some rest => split_str_from (String c0 sep0) 0 "" rest
       | None => []
       end.
Proof.
  set (sep := String c0 sep0).
  revert cur. induction s as [|c r IH]; intros cur.
  - cbn. now rewrite append_nil_r_str.
  - cbn [split_str_from before_first after_first].
    destruct (prefix sep (String c r)).
    + rewrite append_nil_r_str, split_skip_drop.
      unfold sep. cbn [String.length drop].
      replace (S (String.length sep0) - 1)%nat with (String.length sep0) by lia.
      reflexivity.
    + rewrite IH. f_equal. clear. induction cur as [|x cur IHc]; [reflexivity|].
      cbn. now rewrite IHc.
Qed.

Lemma contains_after_first (c0 : ascii) (sep0 s : string) :
  PyStr.contains (String c0 sep0) s = true ->
  exists rest, after_first (String c0 sep0) s = Some rest.
Proof.
  induction s as [|c r IH]; [discriminate|].
  cbn [PyStr.contains after_first].
  destruct (prefix (String c0 sep0) (String c r)); [eauto|].
  cbn [orb]. exact IH.
Qed.

Lemma unfenced_value (c0 : ascii) (sep0 content : string) :
  PyStr.contains (String c0 sep0) content = true ->
  exists rest,
    after_first (String c0 sep0) content = Some rest
    /\ match nth_error (split_str (String c0 sep0) content) 1 with
       | None => None
       | Some inner => nth_error (split_str fence inner) 0
       end
       = Some (before_first fence (before_first (String c0 sep0) rest)).
Proof.
  intros Hin. destruct (contains_after_first c0 sep0 content Hin) as (rest & Hrest).
  exists rest. split; [exact Hrest|].
  unfold split_str. rewrite split_str_unfold, Hrest. cbn [nth_error].
  rewrite split_str_unfold. cbn [nth_error].
  unfold fence. rewrite split_str_unfold. reflexivity.
Qed.

Lemma prefix_shorter (a b s : string) :
  prefix (a ++ b) s = true -> prefix a s = true.
Proof.
  revert s. induction a as [|c a IH]; intros s H; [now destruct s|].
  destruct s as [|c' s]; [discriminate|]. cbn [append prefix] in *.
  destruct (ascii_dec c c'); [now apply IH|discriminate].
Qed.

Lemma json_fence_is_fence (s : string) :
  PyStr.contains json_fence s = true -> PyStr.contains fence s = true.
Proof.
  induction s as [|c r IH]; [discriminate|].
  cbn [PyStr.contains]. intros H. apply orb_true_iff in H as [H | H].
  - change json_fence with (fence ++ "json")%string in H.
    now rewrite (prefix_shorter _ _ _ H).
  - rewrite (IH H). apply orb_true_r.
Qed.

(** X15: cleaning the response never fails with an [IndexError]; the
    cleaned text has no white space at either end and holds no code fence;
    and a response without code fence is only trimmed. *)
Theorem X15_clean_response (content : string) :
  exists cleaned,
    clean_response content = Some cleaned
    /\ PyStr.strip cleaned = cleaned
    /\ PyStr.contains fence cleaned = false
    /\ (PyStr.contains fence content = false -> cleaned = PyStr.strip content).
Proof.
  unfold clean_response. cbv beta zeta.
  destruct (PyStr.contains json_fence content) eqn:Hjson.
  - destruct (unfenced_value "`"%char "``json" content Hjson) as (rest & _ & Hval).
    change (String "`"%char "``json") with json_fence in Hval. rewrite Hval.
    eexists. split; [reflexivity|]. split; [apply strip_idempotent|].
    split; [apply contains_strip; unfold fence; apply before_first_clean|].
    apply json_fence_is_fence in Hjson. congruence.
  - destruct (PyStr.contains fence content) eqn:Hfence.
    + destruct (unfenced_value "`"%char "``" content Hfence) as (rest & _ & Hval).
      change (String "`"%char "``") with fence in Hval. rewrite Hval.
      eexists. split; [reflexivity|]. split; [apply strip_idempotent|].
      split; [apply contains_strip; unfold fence; apply before_first_clean|].
      discriminate.
    + eexists. split; [reflexivity|]. split; [apply strip_idempotent|].
      split; [now apply contains_strip|]. reflexivity.
Qed.

Lemma X15_clean_response_witness :
  clean_response "  {x: 1}  " = Some "{x: 1}".
Proof.
  destruct (X15_clean_response "  {x: 1}  ") as (cleaned & -> & _ & _ & Hplain).
  rewrite Hplain; vm_compute; reflexivity.
Defined.

Lemma prefix_self_append (sep b : string) : prefix sep (sep ++ b) = true.
Proof.
  induction sep as [|c sep IH]; [now destruct b|].
  cbn [append prefix]. destruct (ascii_dec c c); [exact IH|contradiction].
Qed.

Lemma drop_append (sep b : string) : drop (String.length sep) (sep ++ b) = b.
Proof. induction sep as [|c sep IH]; [reflexivity|exact IH]. Qed.

Lemma prefix_other_head (c0 c : ascii) (sep0 r : string) :
  Ascii.eqb c c0 = false -> prefix (String c0 sep0) (String c r) = false.
Proof.
  intros Hne. cbn [prefix]. destruct (ascii_dec c0 c) as [->|_]; [|reflexivity].
  now rewrite Ascii.eqb_refl in Hne.
Qed.

Lemma first_occurrence (c0 : ascii) (sep0 a b : string) :
  has_char c0 a = false ->
  before_first (String c0 sep0) (a ++ String c0 sep0 ++ b) = a
  /\ after_first (String c0 sep0) (a ++ String c0 sep0 ++ b) = Some b
  /\ PyStr.contains (String c0 sep0) (a ++ String c0 sep0 ++ b) = true.
Proof.
  set (sep := String c0 sep0).
  induction a as [|c r IH]; intros Ha.
  - pose proof (prefix_self_append sep b) as Hp.
    pose proof (drop_append sep b) as Hd.
    unfold sep in *. cbn [append] in *.
    cbn [before_first after_first PyStr.contains]. rewrite Hp.
    repeat split. now rewrite Hd.
  - cbn [has_char] in Ha. apply orb_false_iff in Ha as [Hc Ha].
    destruct (IH Ha) as (Hb & Haf & Hin).
    pose proof (prefix_other_head c0 c sep0 (r ++ sep ++ b) Hc) as Hp.
    fold sep in Hp. cbn [append before_first after_first PyStr.contains].
    rewrite Hp, Hb, Haf, Hin. repeat split.
Qed.

Lemma before_first_absent (sep s : string) :
  PyStr.contains sep s = false -> before_first sep s = s.
Proof.
  induction s as [|c r IH]; [reflexivity|].
  cbn [PyStr.contains before_first]. intros H.
  apply orb_false_iff in H as [-> H]. now rewrite IH.
Qed.

(** X16: the usual fenced reply.  When no backquote stands before the
    fence that opens the JSON block nor inside the block, and that fence
    does not occur again, the cleaned text is the block, trimmed: the text
    around the block is dropped. *)
Theorem X16_fenced_block (before inner after : string) :
  has_char "`" before = false ->
  has_char "`" inner = false ->
  PyStr.contains json_fence (inner ++ fence ++ after) = false ->
  clean_response (before ++ json_fence ++ inner ++ fence ++ after)
  = Some (PyStr.strip inner).
Proof.
  intros Hbefore Hinner Honce.
  destruct (first_occurrence "`" "``json" before (inner ++ fence ++ after) Hbefore)
    as (_ & Hafter & Hin).
  change (String "`" "``json") with json_fence in *.
  unfold clean_response. cbv beta zeta. rewrite Hin.
  destruct (unfenced_value "`"%char "``json" _ Hin) as (rest & Hrest & Hval).
  change (String "`"%char "``json") with json_fence in *.
  rewrite Hval.
  assert (Heq : rest = (inner ++ fence ++ after)%string) by congruence.
  subst rest.
  rewrite (before_first_absent _ _ Honce).
  destruct (first_occurrence "`" "``" inner after Hinner) as (Hb & _ & _).
  change (String "`" "``") with fence in Hb. now rewrite Hb.
Qed.

Lemma X16_fenced_block_witness :
  clean_response ("Here it is: " ++ json_fence ++ " {x: 1} " ++ fence ++ " Bye.")
  = Some "{x: 1}".
Proof.
  rewrite (X16_fenced_block "Here it is: " " {x: 1} " " Bye.");
    vm_compute; reflexivity.
Defined.

(* ------------------------------------------------------------------ *)
(** ** The analyzer: validating the parsed response *)

Lemma lookup_setitem_same (key : string) (v : json) (d : pydict) :
  lookup key (setitem key v d) = Some v.
Proof.
  induction d as [|[k x] rest IH]; cbn [setitem lookup].
  - now rewrite String.eqb_refl.
  - destruct (String.eqb key k) eqn:Hk; cbn [lookup]; rewrite Hk; [reflexivity|exact IH].
Qed.

Lemma lookup_setitem_other (key key' : string) (v : json) (d : pydict) :
  key' <> key -> lookup key' (setitem key v d) = lookup key' d.
Proof.
  intros Hne. induction d as [|[k x] rest IH]; cbn [setitem lookup].
  - destruct (String.eqb_spec key' key); [contradiction|reflexivity].
  - destruct (String.eqb_spec key k) as [->|Hk]; cbn [lookup].
    + destruct (String.eqb_spec key' k); [contradiction|reflexivity].
    + now rewrite IH.
Qed.

Lemma fill_defaults_keeps (fields : list string) (d : pydict) (key : string)
    (v : json) :
  lookup key d = Some v -> lookup key (fill_defaults fields d) = Some v.
Proof.
  revert d. induction fields as [|f fields IH]; intros d Hk; [exact Hk|].
  cbn [fill_defaults fold_left]. apply IH.
  destruct (lookup f d) eqn:Hf; [exact Hk|].
  rewrite lookup_setitem_other; [exact Hk|]. intros ->. congruence.
Qed.





Lemma round_half_even_int (q : Q) (z : Z) :
  q == inject_Z z -> round_half_even q = z.
Proof.
  intros Hq. unfold round_half_even. cbv zeta.
  assert (Hf : (Qnum q / Z.pos (Qden q))%Z = z).
  { unfold Qeq in Hq. cbn in Hq. rewrite Z.mul_1_r in Hq. rewrite Hq.
    apply Z.div_mul. discriminate. }
  rewrite Hf.
  assert (Hlt : q - inject_Z z < 1 # 2) by (rewrite Hq; unfold Qlt; cbn; lia).
  apply Qlt_alt in Hlt. unfold Qcompare in *. now rewrite Hlt.
Qed.

Lemma round1_of_roles (n : nat) :
  py_round1 (inject_Z (Z.of_nat n) * 1.5) == inject_Z (Z.of_nat n) * 1.5.
Proof.
  unfold py_round1.
  rewrite (round_half_even_int _ (15 * Z.of_nat n)).
  - rewrite inject_Z_mult. change (inject_Z 15) with 15.
    generalize (inject_Z (Z.of_nat n)). intros x. field.
  - rewrite inject_Z_mult. change (inject_Z 15) with 15.
    generalize (inject_Z (Z.of_nat n)). intros x. lra.
Qed.

Lemma first_step_number (parse_float : string -> option Q) (result : pydict)
    (q : Q) :
  lookup "experience_years" result = Some (JNum q) ->
  match lookup "experience_years" result with
  | Some v =>
      match py_float parse_float v with
      | inr q' => inr (setitem "experience_years" (JNum q') result)
      | inl e => inl e
      end
  | None => inr result
  end = inr (setitem "experience_years" (JNum q) result).
Proof. intros ->. reflexivity. Qed.

(** X18: the fallback for the years.  When the response gives no
    [experience_years], or gives the number 0, and [past_roles] is a list
    of [n > 0] roles, the validated dict holds 1.5 years per role. *)
Theorem X18_years_estimated_from_roles (parse_float : string -> option Q)
    (result : pydict) (roles : list json) :
  lookup "experience_years" result = None
  \/ (exists q, lookup "experience_years" result = Some (JNum q) /\ q == 0) ->
  lookup "past_roles" result = Some (JList roles) ->
  roles <> [] ->
  exists out years,
    validate_and_fix parse_float result = inr out
    /\ lookup "experience_years" out = Some (JNum years)
    /\ years == inject_Z (Z.of_nat (length roles)) * 1.5.
Proof.
  intros Hyears Hroles Hne.
  assert (Hn : (0 <? length roles)%nat = true).
  { apply Nat.ltb_lt. destruct roles; [contradiction|cbn; lia]. }
  assert (Hfix : exists r1,
             fix_experience parse_float result
             = inr (setitem "experience_years"
                      (JNum (py_round1 (inject_Z (Z.of_nat (length roles)) * 1.5)))
                      r1)).
  { unfold fix_experience. destruct Hyears as [Hnone | (q & Hq & Hzero)].
    - rewrite Hnone. cbv beta iota. rewrite Hnone.
      change (equals_zero (get_default None (JNum 0))) with true. cbv iota.
      rewrite Hroles. cbn [get_default py_len]. rewrite Hn.
      now exists result.
    - rewrite (first_step_number _ _ _ Hq).
      rewrite lookup_setitem_same. cbn [get_default equals_zero].
      apply Qeq_bool_iff in Hzero. rewrite Hzero.
      rewrite lookup_setitem_other by discriminate.
      rewrite Hroles. cbn [get_default py_len]. rewrite Hn.
      now exists (setitem "experience_years" (JNum q) result). }
  destruct Hfix as (r1 & Hfix). unfold validate_and_fix. rewrite Hfix.
  eexists. eexists. split; [reflexivity|].
  split; [apply fill_defaults_keeps, lookup_setitem_same|].
  apply round1_of_roles.
Qed.

(** Three past roles and no years: four and a half years. *)
Lemma X18_years_estimated_from_roles_witness :
  exists out years,
    validate_and_fix reads_nothing
      [("past_roles", JList [JStr "Analyst"; JStr "Engineer"; JStr "Lead"])]
    = inr out
    /\ lookup "experience_years" out = Some (JNum years)
    /\ years == 4.5.
Proof.
  destruct (X18_years_estimated_from_roles reads_nothing
              [("past_roles", JList [JStr "Analyst"; JStr "Engineer"; JStr "Lead"])]
              [JStr "Analyst"; JStr "Engineer"; JStr "Lead"])
    as (out & years & Hrun & Hy & Heq).
  - left. reflexivity.
  - reflexivity.
  - discriminate.
  - exists out, years. split; [exact Hrun|]. split; [exact Hy|].
    rewrite Heq. vm_compute. reflexivity.
Defined.

(** X19: a number of years that binary64 holds exactly and that is not 0
    passes the validation as it is: nothing is estimated and nothing is
    clamped, a negative number stays negative. *)
Theorem X19_given_years_kept (parse_float : string -> option Q)
    (result : pydict) (q : Q) :
  lookup "experience_years" result = Some (JNum q) ->
  binary64_value q ->
  ~ q == 0 ->
  exists out,
    validate_and_fix parse_float result = inr out
    /\ lookup "experience_years" out = Some (JNum q).
Proof.
  intros Hq _ Hnz. unfold validate_and_fix, fix_experience.
  rewrite (first_step_number _ _ _ Hq), lookup_setitem_same.
  cbn [get_default equals_zero].
  destruct (Qeq_bool q 0) eqn:Hz; [apply Qeq_bool_iff in Hz; contradiction|].
  eexists. split; [reflexivity|].
  apply fill_defaults_keeps, lookup_setitem_same.
Qed.

Lemma X19_given_years_kept_witness :
  exists out,
    validate_and_fix reads_nothing [("experience_years", JNum (-2))] = inr out
    /\ lookup "experience_years" out = Some (JNum (-2)).
Proof.
  apply X19_given_years_kept; [reflexivity| |].
  - exists (-2)%Z, 0%Z. split; [reflexivity|]. split; [lia|reflexivity].
  - intro H. vm_compute in H. discriminate.
Defined.

(** X20: what the validation raises.  An [experience_years] that is
    [null], a list or an object raises [TypeError]; a string that [float]
    does not read raises [ValueError]; and when the years are absent or 0,
    a [past_roles] that is [null], a boolean or a number raises
    [TypeError]. *)
Theorem X20_validation_errors (parse_float : string -> option Q)
    (result : pydict) :
  (forall v, lookup "experience_years" result = Some v ->
             match v with
             | JNull | JList _ | JObj _ =>
                 validate_and_fix parse_float result = inl TypeError
             | JStr s =>
                 parse_float s = None ->
                 validate_and_fix parse_float result = inl ValueError
             | JBool _ | JNum _ => True
             end)
  /\ (lookup "experience_years" result = None ->
      forall v, lookup "past_roles" result = Some v ->
                match v with
                | JNull | JBool _ | JNum _ =>
                    validate_and_fix parse_float result = inl TypeError
                | JStr _ | JList _ | JObj _ => True
                end).
Proof.
  split.
  - intros v Hv. unfold validate_and_fix, fix_experience. rewrite Hv.
    destruct v; cbn [py_float]; try exact I; try reflexivity.
    intros ->. reflexivity.
  - intros Hnone v Hv. unfold validate_and_fix, fix_experience.
    rewrite Hnone. cbv beta iota. rewrite Hnone.
    change (equals_zero (get_default None (JNum 0))) with true. cbv iota.
    rewrite Hv.
    destruct v; cbn [get_default py_len]; try exact I; reflexivity.
Qed.

(** The model answered [null] for the years. *)
Lemma X20_validation_errors_witness :
  validate_and_fix reads_nothing [("experience_years", JNull)] = inl TypeError.
Proof.
  apply (proj1 (X20_validation_errors reads_nothing
                  [("experience_years", JNull)]) JNull).
  reflexivity.
Defined.

(* ------------------------------------------------------------------ *)
(** ** The PDF handler *)

Lemma extract_pages_ok (texts : list string) (extracted : list string) :
  extract_pages (map inr texts) extracted
  = inr (extracted ++ filter nonempty texts).
Proof.
  revert extracted. induction texts as [|t texts IH]; intros extracted.
  - cbn. now rewrite app_nil_r.
  - cbn [map extract_pages filter]. rewrite IH. unfold nonempty.
    destruct (String.eqb t ""); cbn [negb]; [reflexivity|].
    now rewrite <- app_assoc.
Qed.

Lemma extract_pages_fails (good : list string) (e : string)
    (rest : list page_outcome) (extracted : list string) :
  extract_pages (map inr good ++ inl e :: rest) extracted = inl e.
Proof.
  revert extracted. induction good as [|t good IH]; intros extracted;
    [reflexivity|].
  cbn [map app extract_pages]. apply IH.
Qed.

(** X21: the handler raises nothing and reports a failure as text: when
    the reader cannot be built, or when a page fails after any number of
    pages that were read, it returns the message [Error reading file. An
    error occured: ...] of that first failure, and the text of the pages
    read before is lost. *)
Theorem X21_pdf_failure_is_text (e : string) (good : list string)
    (rest : list page_outcome) :
  extract_text_from_pdf (inl e) = error_text e
  /\ extract_text_from_pdf (inr (map inr good ++ inl e :: rest)) = error_text e
  /\ prefix "Error reading file." (error_text e) = true.
Proof.
  split; [reflexivity|]. split; [|reflexivity].
  unfold extract_text_from_pdf. now rewrite extract_pages_fails.
Qed.

(** X22: when every page is read, the text returned is the texts of the
    pages that are not empty, joined by single spaces and trimmed: it has
    no white space at either end, and pages without text leave no trace
    in it. *)
Theorem X22_pdf_text_joined (texts : list string) :
  extract_text_from_pdf (inr (map inr texts))
  = PyStr.strip (PyStr.join " " (filter nonempty texts))
  /\ PyStr.strip (extract_text_from_pdf (inr (map inr texts)))
     = extract_text_from_pdf (inr (map inr texts))
  /\ extract_text_from_pdf (inr (map inr (filter nonempty texts)))
     = extract_text_from_pdf (inr (map inr texts)).
Proof.
  unfold extract_text_from_pdf. rewrite !extract_pages_ok. cbn [app].
  split; [reflexivity|]. split; [apply strip_idempotent|].
  f_equal. f_equal. clear. induction texts as [|t texts IH]; [reflexivity|].
  cbn [filter]. destruct (nonempty t) eqn:Ht; [|exact IH].
  cbn [filter]. now rewrite Ht, IH.
Qed.

(* ------------------------------------------------------------------ *)
(** ** The constructor of [JobMatcher] *)

Lemma mem_In (w : string) (ws : list string) :
  PyStr.mem w ws = true <-> In w ws.
Proof.
  unfold PyStr.mem. rewrite existsb_exists. split.
  - intros (x & Hx & Heq). apply String.eqb_eq in Heq. now subst.
  - intros H. exists w. split; [exact H|apply String.eqb_refl].
Qed.

(** X23: after construction no column label starts with [Unnamed]; the
    other columns are all kept, in their order. *)
Theorem X23_unnamed_columns_dropped (columns : list string) :
  drop_unnamed columns
  = filter (fun col => negb (prefix "Unnamed" col)) columns
  /\ (forall col, In col (drop_unnamed columns) <->
                  In col columns /\ prefix "Unnamed" col = false).
Proof.
  assert (Heq : drop_unnamed columns
                = filter (fun col => negb (prefix "Unnamed" col)) columns).
  { unfold drop_unnamed.
    destruct (filter (fun col => prefix "Unnamed" col) columns) as [|u us] eqn:Hu.
    - symmetry. apply forallb_filter_id. apply forallb_forall. intros col Hin.
      destruct (prefix "Unnamed" col) eqn:Hp; [|reflexivity].
      assert (Hc : In col (filter (fun col => prefix "Unnamed" col) columns))
        by (apply filter_In; auto).
      rewrite Hu in Hc. destruct Hc.
    - rewrite <- Hu. apply filter_ext_in. intros col Hin. f_equal.
      destruct (prefix "Unnamed" col) eqn:Hp.
      + apply mem_In, filter_In. auto.
      + destruct (PyStr.mem col _) eqn:Hm; [|reflexivity].
        apply mem_In, filter_In in Hm. destruct Hm as [_ Hm]. congruence.
  }
  split; [exact Heq|]. intros col. rewrite Heq, filter_In.
  now rewrite negb_true_iff.
Qed.

(* ------------------------------------------------------------------ *)
(** ** C1: a negative [top_n] *)

(** C1, as stated, fails for a negative [top_n]: with three postings
    above the threshold and [top_n = -1], [head] drops the last row and
    two rows are returned, where [min top_n 3] is -1. *)
Lemma C1_counterexample :
  count_meeting python_resume 0.3 [job_acme; keyword_job; job_bolt] = 3%nat
  /\ exists out,
       finding_matching_jobs stable_sort_desc python_resume
         [job_acme; keyword_job; job_bolt] (-1) 0.3 = inr out
       /\ length out = 2%nat
       /\ Z.of_nat (length out)
          <> Z.min (-1)
               (Z.of_nat (count_meeting python_resume 0.3
                            [job_acme; keyword_job; job_bolt])).
Proof.
  split; [vm_compute; reflexivity|].
  eexists. split; [vm_compute; reflexivity|].
  split; [reflexivity|]. vm_compute. discriminate.
Qed.

(* ------------------------------------------------------------------ *)
(** ** C2: the aggregated score as the code rounds it *)

Lemma f64_skill_match_total (sk : list string) (d t kw : option string) :
  exists q, F64.calculate_skill_match sk d t kw = inr q.
Proof.
  unfold F64.calculate_skill_match. destruct sk as [|s0 rest]; [now eexists|].
  cbn [length F64.truediv]. now eexists.
Qed.

(** C2, as stated, fails: with three skills of five matched (0.6), an
    experience score of 0.75 and a title score of 0.5 the code returns
    0.6249999999999999, which is not 0.50 times the skill score plus 0.30
    times the experience score plus 0.20 times the title score. *)
#[warnings="-inexact-float"]
Lemma C2_counterexample :
  exists scores s e t o,
    F64.calculate_overall_score five_skills_resume three_skills_job = inr scores
    /\ F64.overall scores = 0.6249999999999999%float
    /\ F64.value (F64.skill_score scores) = Some s
    /\ F64.value (F64.exp_score scores) = Some e
    /\ F64.value (F64.title_score scores) = Some t
    /\ F64.value (F64.overall scores) = Some o
    /\ o < 0.50 * s + 0.30 * e + 0.20 * t
    /\ ~ o == 0.50 * s + 0.30 * e + 0.20 * t.
Proof.
  eexists. eexists. eexists. eexists. eexists.
  split; [vm_compute; reflexivity|].
  split; [vm_compute; reflexivity|].
  split; [vm_compute; reflexivity|].
  split; [vm_compute; reflexivity|].
  split; [vm_compute; reflexivity|].
  split; [vm_compute; reflexivity|].
  split; [vm_compute; reflexivity|].
  intro H. vm_compute in H. discriminate.
Qed.

(** C2, amended: the overall score is the binary64 value of
    [skill * 0.50 + exp * 0.30 + title * 0.20] as the code evaluates it --
    the three products and, from left to right, the two sums, each rounded
    to the nearest double -- on the three field scores computed for the
    pair; the three weights are constants. *)
#[warnings="-inexact-float"]
Theorem C2_overall_binary64 (resume_data : F64.ResumeData) (job : JobRow)
    (sk : list string) (y : float) :
  F64.skills resume_data = Some sk ->
  F64.experience_years resume_data = Some y ->
  exists scores,
    F64.calculate_overall_score resume_data job = inr scores
    /\ F64.calculate_skill_match sk (job_description job)
         (Some (resolve_title job)) None = inr (F64.skill_score scores)
    /\ F64.exp_score scores
       = F64.calculate_experience_match y
           (Some (estimate_experience_level (job_description job)
                    (Some (resolve_title job))))
    /\ F64.title_score scores
       = F64.calculate_title_match (Some (resolve_title job))
           (get_default (F64.desired_roles resume_data) [])
    /\ F64.overall scores
       = (F64.skill_score scores * 0.50 + F64.exp_score scores * 0.30
          + F64.title_score scores * 0.20)%float.
Proof.
  intros Hsk Hy.
  destruct (f64_skill_match_total sk (job_description job)
              (Some (resolve_title job)) None) as (q & Hq).
  unfold F64.calculate_overall_score. rewrite Hsk, Hy. cbn [getitem bind ret].
  rewrite Hq. cbn [bind]. eexists. split; [reflexivity|].
  cbn [F64.skill_score F64.exp_score F64.title_score F64.overall].
  repeat split.
Qed.

(** Two skills of two, one year against [Mid-Senior level], two words of
    the title shared: 1 * 0.50 + 0.55 * 0.30 + 1 * 0.20. *)
#[warnings="-inexact-float"]
Lemma C2_overall_binary64_witness :
  exists scores,
    F64.calculate_overall_score
      {| F64.skills := Some ["python"; "sql"];
         F64.experience_years := Some 1.0%float;
         F64.desired_roles := Some ["Senior Data Engineer"] |}
      (mk_job (Some "Data Engineer II") (Some "Python and SQL pipelines") None)
    = inr scores
    /\ F64.overall scores = (1.0 * 0.50 + 0.55 * 0.30 + 1.0 * 0.20)%float.
Proof.
  destruct (C2_overall_binary64
              {| F64.skills := Some ["python"; "sql"];
                 F64.experience_years := Some 1.0%float;
                 F64.desired_roles := Some ["Senior Data Engineer"] |}
              (mk_job (Some "Data Engineer II") (Some "Python and SQL pipelines")
                 None)
              ["python"; "sql"] 1.0%float eq_refl eq_refl)
    as (scores & Hrun & _ & _ & _ & _).
  exists scores. split; [exact Hrun|].
  vm_compute in Hrun. injection Hrun as <-. vm_compute. reflexivity.
Defined.

(* ------------------------------------------------------------------ *)
(** ** C6: the experience score as the code rounds the gap *)

(** C6, as stated, fails: for the years 0.9999999999999999 (the double
    1 - 2^-53, not negative) against [Mid-Senior level] (band 3 to 8) the
    gap below the minimum is larger than 2.0, for which the table gives
    0.30; the code rounds the gap to 2.0 and returns 0.55. *)
#[warnings="-inexact-float"]
Lemma C6_counterexample :
  In ("Mid-Senior level", (3, 8)%Z) band_years
  /\ exists years,
       F64.value just_below_one = Some years
       /\ 0 <= years
       /\ years < 3
       /\ 2.0 < 3 - years
       /\ F64.calculate_experience_match just_below_one (Some "Mid-Senior level")
          = 0.55%float
       /\ PrimFloat.eqb
            (F64.calculate_experience_match just_below_one
               (Some "Mid-Senior level")) 0.30%float = false
       /\ (F64.of_int 3 - just_below_one)%float = 2.0%float.
Proof.
  split; [unfold band_years; simpl; tauto|].
  eexists. split; [vm_compute; reflexivity|].
  split; [vm_compute; discriminate|].
  repeat split; vm_compute; reflexivity.
Qed.

Lemma band_years_lookup (level : string) (lo hi : Z) :
  In (level, (lo, hi)) band_years ->
  level <> "" /\ lookup level level_ranges = Some (lo, hi).
Proof.
  unfold band_years. simpl.
  intros [H | [H | [H | [H | [H | [H | []]]]]]]; injection H as <- <- <-;
    (split; [discriminate | vm_compute; reflexivity]).
Qed.

Lemma unknown_level_years (level : string) :
  (forall band, ~ In (level, band) band_years) ->
  lookup level level_ranges = None.
Proof.
  intros Hnot. unfold level_ranges. cbn [lookup].
  repeat match goal with
         | |- context [String.eqb level ?k] =>
             destruct (String.eqb_spec level k) as [->|_];
             [exfalso; eapply Hnot; unfold band_years; simpl; eauto 10|]
         end.
  reflexivity.
Qed.

(** C6, amended: for non-negative years the experience score follows the
    band table, the gap being the binary64 difference the code computes
    (minimum minus years, or years minus maximum, rounded to the nearest
    double): 1.0 when the years are inside the band; below the minimum
    0.95, 0.85, 0.70, 0.55 at the first of the bounds 0.5, 1.0, 1.5, 2.0
    that the gap does not exceed, 0.30 when it exceeds them all; above the
    maximum 0.90, 0.75, 0.60 at the first of the bounds 1.0, 2.0, 3.0 that
    the gap does not exceed, 0.40 otherwise; 0.5 for a level that is
    unknown or missing.  One year against [Mid-Senior level] scores
    0.55. *)
#[warnings="-inexact-float"]
Theorem C6_experience_bands_binary64 (years : float) :
  (0 <=? years)%float = true ->
  (forall level lo hi,
      In (level, (lo, hi)) band_years ->
      let score := F64.calculate_experience_match years (Some level) in
      let inside :=
        ((F64.of_int lo <=? years) && (years <=? F64.of_int hi))%float in
      let below := (years <? F64.of_int lo)%float in
      (inside = true -> score = 1.0%float)
      /\ (inside = false -> below = true ->
          let gap := (F64.of_int lo - years)%float in
          ((gap <=? 0.5)%float = true -> score = 0.95%float)
          /\ ((gap <=? 0.5)%float = false -> (gap <=? 1.0)%float = true ->
              score = 0.85%float)
          /\ ((gap <=? 0.5)%float = false -> (gap <=? 1.0)%float = false ->
              (gap <=? 1.5)%float = true -> score = 0.70%float)
          /\ ((gap <=? 0.5)%float = false -> (gap <=? 1.0)%float = false ->
              (gap <=? 1.5)%float = false -> (gap <=? 2.0)%float = true ->
              score = 0.55%float)
          /\ ((gap <=? 0.5)%float = false -> (gap <=? 1.0)%float = false ->
              (gap <=? 1.5)%float = false -> (gap <=? 2.0)%float = false ->
              score = 0.30%float))
      /\ (inside = false -> below = false ->
          let gap := (years - F64.of_int hi)%float in
          ((gap <=? 1.0)%float = true -> score = 0.90%float)
          /\ ((gap <=? 1.0)%float = false -> (gap <=? 2.0)%float = true ->
              score = 0.75%float)
          /\ ((gap <=? 1.0)%float = false -> (gap <=? 2.0)%float = false ->
              (gap <=? 3.0)%float = true -> score = 0.60%float)
          /\ ((gap <=? 1.0)%float = false -> (gap <=? 2.0)%float = false ->
              (gap <=? 3.0)%float = false -> score = 0.40%float)))
  /\ (forall level, (forall band, ~ In (level, band) band_years) ->
                    F64.calculate_experience_match years (Some level) = 0.5%float)
  /\ F64.calculate_experience_match years None = 0.5%float
  /\ F64.calculate_experience_match 1.0%float (Some "Mid-Senior level")
     = 0.55%float.
Proof.
  intros _. split; [|split; [|split]].
  - intros level lo hi Hin score inside below.
    destruct (band_years_lookup level lo hi Hin) as (Hne & Hband).
    assert (Hscore :
              score
              = if inside then 1.0%float
                else if below
                     then F64.below_score (F64.of_int lo - years)%float
                     else F64.above_score (years - F64.of_int hi)%float).
    { subst score inside below. unfold F64.calculate_experience_match.
      destruct (String.eqb_spec level ""); [contradiction|].
      now rewrite Hband. }
    rewrite Hscore. split; [|split].
    + intros ->. reflexivity.
    + intros -> -> gap. unfold F64.below_score. fold gap.
      repeat split; intros;
        repeat match goal with
               | H : PrimFloat.leb _ _ = _ |- _ => rewrite H; clear H
               end; reflexivity.
    + intros -> -> gap. unfold F64.above_score. fold gap.
      repeat split; intros;
        repeat match goal with
               | H : PrimFloat.leb _ _ = _ |- _ => rewrite H; clear H
               end; reflexivity.
  - intros level Hnot. unfold F64.calculate_experience_match.
    destruct (String.eqb level ""); [reflexivity|].
    now rewrite (unknown_level_years level Hnot).
  - reflexivity.
  - vm_compute. reflexivity.
Qed.

(** Two and a half years against [Mid-Senior level]: a gap of 0.5. *)
#[warnings="-inexact-float"]
Lemma C6_experience_bands_binary64_witness :
  F64.calculate_experience_match 2.5%float (Some "Mid-Senior level") = 0.95%float.
Proof.
  assert (H0 : (0 <=? 2.5)%float = true) by (vm_compute; reflexivity).
  destruct (C6_experience_bands_binary64 2.5%float H0) as [Hband _].
  assert (Hin : In ("Mid-Senior level", (3, 8)%Z) band_years)
    by (unfold band_years; simpl; tauto).
  destruct (Hband "Mid-Senior level" 3%Z 8%Z Hin) as (_ & Hbelow & _).
  apply Hbelow; vm_compute; reflexivity.
Defined.

(* ------------------------------------------------------------------ *)
(** ** C7: the level estimator *)

Lemma all_chars_complete (c : ascii) : In c all_chars.
Proof.
  unfold all_chars. rewrite <- (ascii_nat_embedding c).
  apply in_map, in_seq. pose proof (nat_ascii_bounded c). lia.
Qed.

Lemma same_letterb_spec (c k : ascii) : same_letterb c k = true <-> same_letter c k.
Proof.
  unfold same_letterb, same_letter. rewrite orb_true_iff, existsb_exists.
  split.
  - intros [H | ([c' k'] & Hin & H)].
    + left. now apply Ascii.eqb_eq.
    + right. cbn [fst snd] in H. apply andb_true_iff in H as [H1 H2].
      apply Ascii.eqb_eq in H1, H2. now subst.
  - intros [-> | H].
    + left. apply Ascii.eqb_refl.
    + right. exists (c, k). split; [exact H|].
      cbn [fst snd]. now rewrite !Ascii.eqb_refl.
Qed.

Lemma lower_char_table :
  forallb (fun k =>
             forallb (fun c =>
                        Bool.eqb (Ascii.eqb (PyStr.lower_char c) k)
                                 (same_letterb c k))
                     all_chars)
          keyword_chars = true.
Proof. vm_compute. reflexivity. Qed.

Lemma lower_char_keyword (c k : ascii) :
  In k keyword_chars -> (PyStr.lower_char c = k <-> same_letter c k).
Proof.
  intros Hk. pose proof lower_char_table as H.
  rewrite forallb_forall in H. specialize (H k Hk).
  rewrite forallb_forall in H. specialize (H c (all_chars_complete c)).
  apply Bool.eqb_prop in H.
  rewrite <- same_letterb_spec, <- H. symmetry. apply Ascii.eqb_eq.
Qed.

Lemma keyword_cons (k : ascii) (word : string) :
  keyword (String k word) -> In k keyword_chars /\ keyword word.
Proof. unfold keyword. cbn. intros H. now inversion H. Qed.

Lemma prefix_lower_reads (word s : string) :
  keyword word ->
  (prefix word (PyStr.lower s) = true <->
   exists mid post, s = (mid ++ post)%string /\ reads mid word).
Proof.
  revert s. induction word as [|k word IH]; intros s Hkw.
  - split.
    + intros _. exists "", s. split; [reflexivity|constructor].
    + intros _. now destruct (PyStr.lower s).
  - apply keyword_cons in Hkw as [Hk Hkw]. split.
    + destruct s as [|c s]; [discriminate|]. cbn [PyStr.lower prefix].
      destruct (ascii_dec k (PyStr.lower_char c)) as [Heq|]; [|discriminate].
      intros Hp. apply (IH s Hkw) in Hp as (mid & post & -> & Hr).
      exists (String c mid), post. split; [reflexivity|].
      constructor; [|exact Hr]. now apply (lower_char_keyword c k Hk).
    + intros (mid & post & -> & Hr). inversion Hr as [|c k' mid' word' Hl Hr']; subst.
      cbn [append PyStr.lower prefix].
      apply (lower_char_keyword c k Hk) in Hl.
      destruct (ascii_dec k (PyStr.lower_char c)) as [_|Hne]; [|now symmetry in Hl].
      apply (IH _ Hkw). now exists mid', post.
Qed.

Lemma contains_lower_occurs (word text : string) :
  keyword word ->
  (PyStr.contains word (PyStr.lower text) = true <-> occurs word text).
Proof.
  intros Hkw. unfold occurs. induction text as [|c text IH].
  - cbn [PyStr.lower PyStr.contains]. rewrite orb_false_r.
    change "" with (PyStr.lower "") at 1.
    rewrite (prefix_lower_reads word "" Hkw). split.
    + intros (mid & post & Heq & Hr). now exists "", mid, post.
    + intros (pre & mid & post & Heq & Hr).
      destruct pre; [|discriminate]. now exists mid, post.
  - cbn [PyStr.lower PyStr.contains]. rewrite orb_true_iff.
    change (String (PyStr.lower_char c) (PyStr.lower text))
      with (PyStr.lower (String c text)).
    rewrite (prefix_lower_reads word (String c text) Hkw), IH. split.
    + intros [(mid & post & Heq & Hr) | (pre & mid & post & Heq & Hr)].
      * now exists "", mid, post.
      * exists (String c pre), mid, post. split; [|exact Hr].
        cbn. now rewrite Heq.
    + intros (pre & mid & post & Heq & Hr). destruct pre as [|c' pre].
      * left. now exists mid, post.
      * right. cbn in Heq. injection Heq as -> ->. now exists pre, mid, post.
Qed.

Lemma any_in_some_occurs (words : list string) (text : string) :
  Forall keyword words ->
  (any_in words (PyStr.lower text) = true <-> some_occurs words text).
Proof.
  intros Hkw. unfold any_in, some_occurs. rewrite existsb_exists.
  rewrite Forall_forall in Hkw. split.
  - intros (w & Hin & Hc). exists w. split; [exact Hin|].
    now apply (contains_lower_occurs w text (Hkw w Hin)).
  - intros (w & Hin & Ho). exists w. split; [exact Hin|].
    now apply (contains_lower_occurs w text (Hkw w Hin)).
Qed.

Lemma keyword_check (word : string) :
  forallb (fun k => existsb (Ascii.eqb k) keyword_chars)
    (list_ascii_of_string word) = true ->
  keyword word.
Proof.
  unfold keyword. rewrite forallb_forall, Forall_forall.
  intros H k Hk. specialize (H k Hk). apply existsb_exists in H.
  destruct H as (k' & Hin & Heq). apply Ascii.eqb_eq in Heq. now subst.
Qed.

Lemma keywords_check (words : list string) :
  forallb (fun word =>
             forallb (fun k => existsb (Ascii.eqb k) keyword_chars)
               (list_ascii_of_string word)) words = true ->
  Forall keyword words.
Proof.
  rewrite forallb_forall, Forall_forall.
  intros H w Hw. apply keyword_check, H, Hw.
Qed.

Ltac level_hit words text :=
  let H := fresh "Hit" in
  assert (H : any_in words (PyStr.lower text) = true <-> some_occurs words text)
    by (apply any_in_some_occurs, keywords_check; vm_compute; reflexivity).

(** C7: the estimator joins description and title with a space and
    answers the label of the first keyword set, in the fixed priority
    order, one of whose keywords occurs in that text, letter case ignored;
    it answers [Mid-Senior level] when no keyword of any set occurs. *)
Theorem C7_level_first_keyword_set (d t : option string) :
  let text := (get_default d "" ++ " " ++ get_default t "")%string in
  let hit := fun words => some_occurs words text in
  let interns := ["intern"; "internship"] in
  let juniors := ["entry level"; "junior"; "graduate"; "associate"] in
  let seniors := ["senior"; "sr."; "lead"; "principal"] in
  let directors := ["director"; "head of"; "vp"; "vice president"] in
  let executives := ["chief"; "cto"; "ceo"; "executive"] in
  (hit interns -> estimate_experience_level d t = "Internship")
  /\ (~ hit interns -> hit juniors ->
      estimate_experience_level d t = "Entry level")
  /\ (~ hit interns -> ~ hit juniors -> hit seniors ->
      estimate_experience_level d t = "Mid-Senior level")
  /\ (~ hit interns -> ~ hit juniors -> ~ hit seniors -> hit directors ->
      estimate_experience_level d t = "Director")
  /\ (~ hit interns -> ~ hit juniors -> ~ hit seniors -> ~ hit directors ->
      hit executives -> estimate_experience_level d t = "Executive")
  /\ (~ hit interns -> ~ hit juniors -> ~ hit seniors -> ~ hit directors ->
      ~ hit executives -> estimate_experience_level d t = "Mid-Senior level").
Proof.
  intros text hit interns juniors seniors directors executives.
  level_hit interns text. level_hit juniors text. level_hit seniors text.
  level_hit directors text. level_hit executives text.
  assert (Hcode :
            estimate_experience_level d t
            = if any_in interns (PyStr.lower text) then "Internship"
              else if any_in juniors (PyStr.lower text) then "Entry level"
              else if any_in seniors (PyStr.lower text) then "Mid-Senior level"
              else if any_in directors (PyStr.lower text) then "Director"
              else if any_in executives (PyStr.lower text) then "Executive"
              else "Mid-Senior level").
  { unfold estimate_experience_level, text, get_default.
    destruct d, t; reflexivity. }
  rewrite Hcode. unfold hit.
  destruct (any_in interns (PyStr.lower text));
    destruct (any_in juniors (PyStr.lower text));
    destruct (any_in seniors (PyStr.lower text));
    destruct (any_in directors (PyStr.lower text));
    destruct (any_in executives (PyStr.lower text));
    repeat split; intros;
      try reflexivity;
      repeat match goal with
             | H : true = true <-> ?P, N : ~ ?P |- _ =>
                 exfalso; apply N, H; reflexivity
             | H : false = true <-> ?P, Y : ?P |- _ =>
                 apply H in Y; discriminate Y
             end.
Qed.

(** A description that writes JUNIOR in capitals and holds no keyword of
    the first set: [Entry level]. *)
Lemma C7_level_first_keyword_set_witness :
  estimate_experience_level capitals_job_description (Some "Analyst II")
  = "Entry level".
Proof.
  apply (C7_level_first_keyword_set capitals_job_description (Some "Analyst II")).
  - intros Hhit.
    apply (any_in_some_occurs ["intern"; "internship"]) in Hhit;
      [vm_compute in Hhit; discriminate Hhit|].
    apply keywords_check. vm_compute. reflexivity.
  - apply (any_in_some_occurs ["entry level"; "junior"; "graduate"; "associate"]);
      [apply keywords_check; vm_compute; reflexivity|].
    vm_compute. reflexivity.
Defined.

(* ------------------------------------------------------------------ *)
(** ** The order of the returned rows *)

(** X24: whatever sort of its rows [sort_values] runs, as long as it
    returns them in non-increasing order of the key, the rows the pass
    returns are in non-increasing order of [match_score]. *)
Theorem X24_rows_descending
    (sort_values : list MatchResult -> list MatchResult)
    (resume_data : ResumeData) (jobs : list JobRow) (top_n : Z) (min_score : Q) :
  sort_values_contract sort_values ->
  valid_profile resume_data ->
  exists out,
    finding_matching_jobs sort_values resume_data jobs top_n min_score = inr out
    /\ descending out.
Proof.
  intros Hsort Hvalid. eexists.
  split; [apply (finding_matching_jobs_run _ _ _ _ _ Hvalid)|].
  destruct (spec_result_set resume_data min_score jobs) as [|r0 rest];
    [constructor|].
  destruct (head_firstn top_n (sort_values (r0 :: rest))) as (k & ->).
  apply descending_firstn, Hsort.
Qed.

Lemma X24_rows_descending_witness :
  exists out,
    finding_matching_jobs stable_sort_desc python_resume
      [keyword_job; job_acme; job_bolt] 10 0.3 = inr out
    /\ descending out.
Proof.
  apply (X24_rows_descending stable_sort_desc python_resume).
  - exact stable_sort_contract.
  - repeat split.
    + now exists ["python"].
    + exists 4. split; [reflexivity | vm_compute; discriminate].
    + now exists [].
    + now exists "Mid".
Defined.
